(** * HybPiper: gene recovery heatmap ([hybpiper/gene_recovery_heatmap.py])

    A shallow embedding of the module's two functions,
    [get_figure_dimensions] and [main], together with the part of pandas,
    seaborn and matplotlib they call, and the properties of the recovery
    matrix and of the rendering calls that follow from the code.

    Conventions of the embedding.
    - A pandas cell is a [value]: a Python string or a number.  Numbers are
      [num]: an exact rational in lowest terms, or one of the three IEEE
      special values that a division by zero produces.  [Qred] only keeps
      every finite number in its canonical representation, so that equal
      numbers are equal terms.  [num] does not round: it agrees with the
      binary64 arithmetic of pandas where the operands and the result are
      exactly representable, and properties that depend on the exact value
      of a quotient carry that condition ([exact_in_binary64]).  What
      binary64 itself computes for one cell is [B64.cell].
    - A [DataFrame] is its list of named columns, in order, over the default
      [RangeIndex] that [pd.read_csv] gives (row label = row position).
    - [frame_of_table] is the frame of a table whose first column
      [pd.read_csv] keeps as text and whose other columns it reads as
      numbers.  [text_identifiers] is a condition under which it does keep
      the first column as text; properties that depend on how the row labels
      are typed or ordered carry it.
    - A Python call either returns or raises: [result].  [main] also talks to
      seaborn and matplotlib; those calls are recorded, in order, in a trace
      of [call]s.  The exceptions that seaborn and matplotlib can raise
      themselves are not modelled: what is said of a run that returns is
      said under the hypothesis that it returns, and what is said of a run
      that raises names the step that raises.
    - The [logger.info] lines are not modelled. *)

From Stdlib Require Import List String Ascii ZArith QArith Bool Lia.
From Stdlib Require Import Sorting.Sorted Sorting.Permutation.
From Stdlib Require Floats.SpecFloat.
Import ListNotations.

Local Open Scope string_scope.
Local Open Scope Z_scope.

(** ** Numbers *)

Module Num.

Inductive num : Type :=
| Fin (q : Q)     (* a finite float *)
| PInf            (* inf *)
| NInf            (* -inf *)
| NaN.            (* nan *)

Definition Qlt_bool (x y : Q) : bool := negb (Qle_bool y x).

Definition of_Z (z : Z) : num := Fin (inject_Z z).

(** True division as numpy does it (no exception, [errstate] ignored):
    [x / 0] is [inf], [-inf] or [nan] by the sign of [x]. *)
Definition div (x y : num) : num :=
  match x, y with
  | NaN, _ | _, NaN => NaN
  | Fin a, Fin b =>
      if Qeq_bool b 0 then
        match Qcompare a 0 with
        | Gt => PInf
        | Lt => NInf
        | Eq => NaN
        end
      else Fin (Qred (a / b))
  | Fin _, (PInf | NInf) => Fin 0
  | PInf, Fin b => if Qle_bool 0 b then PInf else NInf
  | NInf, Fin b => if Qle_bool 0 b then NInf else PInf
  | (PInf | NInf), (PInf | NInf) => NaN
  end.

(** [x < y] on floats: every comparison with [nan] is [False]. *)
Definition ltb (x y : num) : bool :=
  match x, y with
  | NaN, _ | _, NaN => false
  | Fin a, Fin b => Qlt_bool a b
  | Fin _, PInf => true
  | Fin _, NInf => false
  | PInf, _ => false
  | NInf, NInf => false
  | NInf, _ => true
  end.

(** Numerical equality of labels. *)
Definition eqb (x y : num) : bool :=
  match x, y with
  | Fin a, Fin b => Qeq_bool a b
  | PInf, PInf | NInf, NInf | NaN, NaN => true
  | _, _ => false
  end.

(** The order in which a sort places numbers: ascending, [nan] last. *)
Definition leb (x y : num) : bool :=
  match x, y with
  | _, NaN => true
  | NaN, _ => false
  | NInf, _ => true
  | _, NInf => false
  | _, PInf => true
  | PInf, _ => false
  | Fin a, Fin b => Qle_bool a b
  end.

End Num.
Export Num.

(** ** Python values, exceptions and results *)

Inductive value : Type :=
| VStr (s : string)
| VNum (x : num).

Inductive exn : Type :=
| IndexError
| KeyError
| TypeError
| ValueError
| OSError
| SystemExit (code : Z).

Inductive result (A : Type) : Type :=
| Ok (a : A)
| Raise (e : exn).
Arguments Ok {A} a.
Arguments Raise {A} e.

Definition rbind {A B} (r : result A) (k : A -> result B) : result B :=
  match r with
  | Ok a => k a
  | Raise e => Raise e
  end.

Declare Scope result_scope.
Delimit Scope result_scope with result.
Notation "x <- c ;; k" := (rbind c (fun x => k))
  (at level 61, c at next level, right associativity) : result_scope.
Notation "' p <- c ;; k" := (rbind c (fun x => match x with p => k end))
  (at level 61, p pattern, c at next level, right associativity) : result_scope.

Fixpoint mapM {A B} (f : A -> result B) (l : list A) : result (list B) :=
  match l with
  | [] => Ok []
  | a :: l' =>
      (b <- f a ;;
       bs <- mapM f l' ;;
       Ok (b :: bs))%result
  end.

Definition value_eqb (x y : value) : bool :=
  match x, y with
  | VStr s, VStr t => String.eqb s t
  | VNum a, VNum b => Num.eqb a b
  | _, _ => false
  end.

(** Sort order of labels: numbers before strings, strings by code point
    (the byte order of UTF-8 is the code point order). *)
Definition value_leb (x y : value) : bool :=
  match x, y with
  | VNum a, VNum b => Num.leb a b
  | VNum _, VStr _ => true
  | VStr _, VNum _ => false
  | VStr s, VStr t => String.leb s t
  end.

(** ** The part of pandas that [main] uses *)

Module Pandas.

Definition Series := list value.

(** Columns in order, each with its name.  [pd.read_csv] makes the names
    unique and the columns equally long. *)
Definition DataFrame := list (string * Series).

Definition nrows (df : DataFrame) : nat :=
  match df with
  | [] => O
  | (_, c) :: _ => List.length c
  end.

(** Long form, as [melt] returns it: one row per (sample, gene) pair with
    the columns [Species], [gene_id] and [percentage_recovery]. *)
Record LongRow (A : Type) : Type := mkLong {
  Species : value;
  gene_id : string;
  percentage_recovery : A
}.
Arguments mkLong {A}.
Arguments Species {A}.
Arguments gene_id {A}.
Arguments percentage_recovery {A}.

(** The pivoted frame: row labels, column labels, rows of cells. *)
Record Matrix : Type := mkMatrix {
  index : list value;
  columns : list string;
  values : list (list num)
}.

(** *** Generic helpers: first occurrences, duplicates, sorting *)

Section Labels.
Context {A : Type}.
Variable eqb : A -> A -> bool.
Variable leb : A -> A -> bool.

Definition mem (a : A) (l : list A) : bool := existsb (eqb a) l.

Fixpoint has_duplicates (l : list A) : bool :=
  match l with
  | [] => false
  | a :: l' => mem a l' || has_duplicates l'
  end.

(** The distinct elements, each at its first occurrence. *)
Fixpoint unique (l : list A) : list A :=
  match l with
  | [] => []
  | a :: l' => a :: filter (fun b => negb (eqb a b)) (unique l')
  end.

Fixpoint insert (a : A) (l : list A) : list A :=
  match l with
  | [] => [a]
  | b :: l' => if leb a b then a :: l else b :: insert a l'
  end.

Fixpoint sort (l : list A) : list A :=
  match l with
  | [] => []
  | a :: l' => insert a (sort l')
  end.

Fixpoint position (a : A) (l : list A) : option nat :=
  match l with
  | [] => None
  | b :: l' => if eqb a b then Some O else option_map S (position a l')
  end.
End Labels.

(** *** [df.loc[:, df.columns[1]:].div(df.iloc[0][df.columns[1]:])] *)

Definition value_div (x r : value) : result value :=
  match x, r with
  | VNum a, VNum b => Ok (VNum (Num.div a b))
  | _, _ => Raise TypeError
  end.

(** One column divided by its own first cell, the reference value. *)
Definition series_div_first (col : Series) : result Series :=
  match col with
  | [] => Raise IndexError
  | r :: _ => mapM (fun x => value_div x r) col
  end.

Definition div_by_first_row (df : DataFrame) : result DataFrame :=
  match df with
  | [] | [_] => Raise IndexError                     (* df.columns[1] *)
  | c0 :: genes =>
      match nrows df with
      | O => Raise IndexError                        (* df.iloc[0] *)
      | S _ =>
          (genes' <- mapM (fun c : string * Series =>
                             col <- series_div_first (snd c) ;;
                             Ok (fst c, col)) genes ;;
           Ok (c0 :: genes'))%result
      end
  end.

(** *** [df.where(df.loc[:, df.columns[1]:] < 1, 1, inplace=True)]

    The condition covers the gene columns only; with [inplace=True] pandas
    fills the missing first column of the condition with [True], so that
    column is kept.  A cell for which [cell < 1] is [False], which
    includes [nan] and [inf], becomes [1]. *)

Definition where_cell (x : value) : result value :=
  match x with
  | VNum a => Ok (if Num.ltb a (of_Z 1) then VNum a else VNum (of_Z 1))
  | VStr _ => Raise TypeError
  end.

Definition where_lt_one (df : DataFrame) : result DataFrame :=
  match df with
  | [] | [_] => Raise IndexError
  | c0 :: genes =>
      (genes' <- mapM (fun c : string * Series =>
                         col <- mapM where_cell (snd c) ;;
                         Ok (fst c, col)) genes ;;
       Ok (c0 :: genes'))%result
  end.

(** *** [df.drop(labels=0, axis=0, inplace=True)]: over the [RangeIndex]
    the row with label [0] is the first row. *)

Definition drop_label_0 (df : DataFrame) : result DataFrame :=
  match nrows df with
  | O => Raise KeyError
  | S _ => Ok (map (fun c : string * Series => (fst c, tl (snd c))) df)
  end.

(** *** [df.melt(id_vars=['Species'], var_name='gene_id',
    value_name='percentage_recovery')] *)

Definition melt (df : DataFrame) : result (list (LongRow value)) :=
  match find (fun c : string * Series => String.eqb (fst c) "Species") df with
  | None => Raise KeyError
  | Some (_, ids) =>
      Ok (flat_map
            (fun c : string * Series =>
               map (fun iv : value * value => mkLong (fst iv) (fst c) (snd iv))
                   (combine ids (snd c)))
            (filter (fun c : string * Series =>
                       negb (String.eqb (fst c) "Species")) df))
  end.

(** *** [df["percentage_recovery"].apply(pd.to_numeric)]

    A number is returned as it is; a string is parsed.  The parser of
    numeric literals is a parameter of the model. *)

Section ToNumeric.
Variable parse_numeric : string -> option num.

Definition to_numeric (v : value) : result num :=
  match v with
  | VNum x => Ok x
  | VStr s =>
      match parse_numeric s with
      | Some x => Ok x
      | None => Raise ValueError
      end
  end.

Definition apply_to_numeric (long : list (LongRow value))
  : result (list (LongRow num)) :=
  mapM (fun r : LongRow value =>
          x <- to_numeric (percentage_recovery r) ;;
          Ok (mkLong (Species r) (gene_id r) x))%result long.
End ToNumeric.

(** *** [df.pivot(index='Species', columns='gene_id',
    values='percentage_recovery')]

    Raises [ValueError] ("Index contains duplicate entries, cannot
    reshape") when two rows have the same (index, column) pair.  The
    labels of both axes of the result are the distinct values, sorted;
    a pair that does not occur gives [nan]. *)

Definition key_eqb (k1 k2 : value * string) : bool :=
  value_eqb (fst k1) (fst k2) && String.eqb (snd k1) (snd k2).

Definition long_key {A} (r : LongRow A) : value * string :=
  (Species r, gene_id r).

Definition pivot_cell (long : list (LongRow num)) (i : value) (g : string)
  : num :=
  match find (fun r => key_eqb (i, g) (long_key r)) long with
  | Some r => percentage_recovery r
  | None => NaN
  end.

Definition pivot (long : list (LongRow num)) : result Matrix :=
  if has_duplicates key_eqb (map long_key long) then Raise ValueError
  else
    let idx := sort value_leb (unique value_eqb (map Species long)) in
    let cols := sort String.leb (unique String.eqb (map gene_id long)) in
    Ok (mkMatrix idx cols
          (map (fun i => map (fun g => pivot_cell long i g) cols) idx)).

(** [df.loc[i, g]] on the pivoted frame. *)
Definition matrix_get (m : Matrix) (i : value) (g : string) : option num :=
  match position value_eqb i (index m), position String.eqb g (columns m) with
  | Some r, Some c =>
      match nth_error (values m) r with
      | Some row => nth_error row c
      | None => None
      end
  | _, _ => None
  end.

End Pandas.
Export Pandas.

(** ** [get_figure_dimensions] (lines 61-93)

    The four optional arguments are [None] or an [int] (the parser declares
    them with [type=int]).  [x if x else d] tests the truth value of [x]:
    [None] and [0] are false, every other integer is true. *)

Definition if_else {A} (inj : Z -> A) (x : option Z) (d : A) : A :=
  match x with
  | Some v => if v =? 0 then d else inj v
  | None => d
  end.

(** [n / 3] on a Python [int]: true division. *)
Definition div3 (n : nat) : Q := Qred (Z.of_nat n # 3).

Definition get_figure_dimensions (df : Matrix)
  (figure_length figure_height sample_text_size gene_text_size : option Z)
  : Q * Q * Z * Z :=
  let num_samples := List.length (index df) in
  let num_genes := List.length (columns df) in
  let sample_text_size := if_else id sample_text_size 10 in
  let gene_id_text_size := if_else id gene_text_size 10 in
  let figure_height := if_else inject_Z figure_height (div3 num_samples) in
  let fig_length := if_else inject_Z figure_length (div3 num_genes) in
  (fig_length, figure_height, sample_text_size, gene_id_text_size).

(** ** Calls into seaborn and matplotlib, and the file system *)

Inductive call : Type :=
| sns_set_figsize (length height : Q)
    (* sns.set(rc={'figure.figsize': (length, height)}) *)
| sns_set_style (style : string)
| sns_heatmap (data : Matrix) (vmin vmax : option Q) (cmap : string)
| tick_params (axis : string) (labelsize : Z)
| set_yticklabels (rotation : Z)
| set_xlabel (label : string) (fontsize : Z) (fontweight : string) (labelpad : Z)
| set_ylabel (label : string) (fontsize : Z) (fontweight : string) (labelpad : Z)
| plt_title (label : string) (fontsize : Z) (fontweight : string) (y : Q)
| plt_savefig (path : string) (dpi : Z) (bbox_inches : string).

(** A computation of [main]: it extends the trace of calls and returns or
    raises.  A recorded call returns; that seaborn or matplotlib may raise
    in it is outside the model. *)
Definition IO (A : Type) : Type := list call -> result A * list call.

Definition ret {A} (a : A) : IO A := fun tr => (Ok a, tr).
Definition raise {A} (e : exn) : IO A := fun tr => (Raise e, tr).
Definition lift {A} (r : result A) : IO A := fun tr => (r, tr).
Definition emit (c : call) : IO unit := fun tr => (Ok tt, (tr ++ [c])%list).
Definition bind {A B} (m : IO A) (k : A -> IO B) : IO B :=
  fun tr =>
    match m tr with
    | (Ok a, tr') => k a tr'
    | (Raise e, tr') => (Raise e, tr')
    end.
Definition run {A} (m : IO A) : result A * list call := m [].

Declare Scope io_scope.
Delimit Scope io_scope with io.
Notation "x <- c ;; k" := (bind c (fun x => k))
  (at level 61, c at next level, right associativity) : io_scope.
Notation "c ;;; k" := (bind c (fun _ => k))
  (at level 61, right associativity) : io_scope.

(** The files [main] can see: [None] where no file exists, otherwise what
    [pd.read_csv(path, delimiter='\t')] returns or raises for the file. *)
Definition FileSystem := string -> option (result DataFrame).

Definition path_exists (fs : FileSystem) (p : string) : bool :=
  match fs p with
  | Some _ => true
  | None => false
  end.

Definition read_csv (fs : FileSystem) (p : string) : result DataFrame :=
  match fs p with
  | Some r => r
  | None => Raise OSError
  end.

Fixpoint ends_with_slash (s : string) : bool :=
  match s with
  | EmptyString => false
  | String c EmptyString => Ascii.eqb c "/"%char
  | String _ s' => ends_with_slash s'
  end.

(** [os.path.join(a, b)] on POSIX. *)
Definition path_join (a b : string) : string :=
  match b with
  | String "/"%char _ => b
  | _ =>
      if String.eqb a "" || ends_with_slash a then a ++ b
      else a ++ "/" ++ b
  end.

(** The [argparse.Namespace] that [main] receives. *)
Record Args : Type := mkArgs {
  seq_lengths_file : string;
  output_folder : option string;
  heatmap_filename : string;
  figure_length : option Z;
  figure_height : option Z;
  sample_text_size : option Z;
  gene_text_size : option Z;
  heatmap_filetype : string;
  heatmap_dpi : Z
}.

(** ** [main] (lines 144-214) *)

(** [args.output_folder if args.output_folder else '.']: [None] and the
    empty string are false. *)
Definition parent_dir (args : Args) : string :=
  match output_folder args with
  | Some d => if String.eqb d "" then "." else d
  | None => "."
  end.

Definition path_to_seq_lengths_file (args : Args) : string :=
  path_join (parent_dir args) (seq_lengths_file args).

Definition path_to_output_heatmap (args : Args) : string :=
  path_join (parent_dir args)
    (heatmap_filename args ++ "." ++ heatmap_filetype args).

Section Main.
Variable parse_numeric : string -> option num.

(** Lines 172-188: from the frame read to the recovery matrix. *)
Definition recovery_matrix (df : DataFrame) : result Matrix :=
  (df1 <- div_by_first_row df ;;
   df2 <- where_lt_one df1 ;;
   df3 <- drop_label_0 df2 ;;
   long <- melt df3 ;;
   long' <- apply_to_numeric parse_numeric long ;;
   pivot long')%result.

Definition main (fs : FileSystem) (args : Args) : IO unit :=
  let parent_dir := parent_dir args in
  let path_to_seq_lengths_file := path_to_seq_lengths_file args in
  ((if negb (String.eqb (seq_lengths_file args) "")
       && negb (path_exists fs path_to_seq_lengths_file)
    then raise (SystemExit 1) else ret tt) ;;;
   df <- lift (read_csv fs path_to_seq_lengths_file) ;;
   df <- lift (recovery_matrix df) ;;
   let '(fig_length, figure_height, sample_text_size, gene_id_text_size) :=
     get_figure_dimensions df (figure_length args) (figure_height args)
       (sample_text_size args) (gene_text_size args) in
   emit (sns_set_figsize fig_length figure_height) ;;;
   emit (sns_set_style "ticks") ;;;
   let cmap := "bone_r" in
   emit (sns_heatmap df (Some 0%Q) None cmap) ;;;
   emit (tick_params "x" gene_id_text_size) ;;;
   emit (tick_params "y" sample_text_size) ;;;
   emit (set_yticklabels 0) ;;;
   emit (set_xlabel "Gene name" 14 "bold" 20) ;;;
   emit (set_ylabel "Sample name" 14 "bold" 20) ;;;
   emit (plt_title
           "Percentage length recovery for each gene, relative to mean of targetfile references"
           14 "bold" (105 # 100)) ;;;
   let path_to_output_heatmap := path_to_output_heatmap args in
   emit (plt_savefig path_to_output_heatmap (heatmap_dpi args) "tight"))%io.
End Main.

(** ** Length tables

    The file that [main] reads ([seq_lengths.tsv]): a header line, the row
    of mean reference lengths, then one row per sample.  The first column
    holds the row identifiers, every other column the lengths for one
    gene.  The table is kept by column, as pandas keeps it. *)

Record LengthTable : Type := mkTable {
  id_header : string;                       (* name of the first column *)
  ids : list string;                        (* first column, reference row first *)
  gene_columns : list (string * list Q)     (* name and cells, reference first *)
}.

Definition sample_ids (t : LengthTable) : list string := tl (ids t).
Definition gene_names (t : LengthTable) : list string := map fst (gene_columns t).

(** The frame of the table when [pd.read_csv] keeps the first column as
    text and reads every other column as numbers: a column of strings and
    numeric columns. *)
Definition frame_of_table (t : LengthTable) : DataFrame :=
  (id_header t, map VStr (ids t))
  :: map (fun gc : string * list Q =>
            (fst gc, map (fun q => VNum (Fin q)) (snd gc))) (gene_columns t).

(** Rectangular, with a reference row, at least one gene, distinct column
    names, and the identifier column called [Species] as HybPiper writes
    it. *)
Definition rectangular (t : LengthTable) : bool :=
  forallb (fun gc : string * list Q =>
             Nat.eqb (List.length (snd gc)) (List.length (ids t)))
          (gene_columns t).

Definition shaped (t : LengthTable) : bool :=
  Nat.leb 1 (List.length (ids t))
  && Nat.leb 1 (List.length (gene_columns t))
  && rectangular t
  && negb (has_duplicates String.eqb (id_header t :: gene_names t)).

Definition readable (t : LengthTable) : bool :=
  String.eqb (id_header t) "Species" && shaped t.

(** A well-formed table has at least one sample row and no sample
    identifier twice. *)
Definition samples_distinct (t : LengthTable) : bool :=
  Nat.leb 2 (List.length (ids t))
  && negb (has_duplicates String.eqb (sample_ids t)).

Definition well_formed (t : LengthTable) : bool :=
  readable t && samples_distinct t.

Definition nonnegative (t : LengthTable) : bool :=
  forallb (fun gc : string * list Q => forallb (Qle_bool 0) (snd gc))
          (gene_columns t).

(** The cell that lines 173 and 176 compute from a sample length [s] and
    the reference length [r] of its gene. *)
Definition clamp (x : num) : num :=
  if Num.ltb x (of_Z 1) then x else of_Z 1.

Definition recovery (r s : Q) : num := clamp (Num.div (Fin s) (Fin r)).

(** The long form of the table after line 185. *)
Definition long_of_table (t : LengthTable) : list (LongRow num) :=
  flat_map
    (fun gc : string * list Q =>
       map (fun p : string * Q =>
              mkLong (VStr (fst p)) (fst gc) (recovery (hd 0%Q (snd gc)) (snd p)))
           (combine (sample_ids t) (tl (snd gc))))
    (gene_columns t).

(** The frame after line 173, after line 176 and after line 179. *)
Definition ratio_frame (t : LengthTable) : DataFrame :=
  (id_header t, map VStr (ids t))
  :: map (fun gc : string * list Q =>
            (fst gc,
             map (fun q => VNum (Num.div (Fin q) (Fin (hd 0%Q (snd gc)))))
                 (snd gc))) (gene_columns t).

Definition capped_frame (t : LengthTable) : DataFrame :=
  (id_header t, map VStr (ids t))
  :: map (fun gc : string * list Q =>
            (fst gc, map (fun q => VNum (recovery (hd 0%Q (snd gc)) q)) (snd gc)))
         (gene_columns t).

Definition sample_frame (t : LengthTable) : DataFrame :=
  (id_header t, map VStr (sample_ids t))
  :: map (fun gc : string * list Q =>
            (fst gc,
             map (fun q => VNum (recovery (hd 0%Q (snd gc)) q)) (tl (snd gc))))
         (gene_columns t).

(** The long form as [melt] returns it, before [pd.to_numeric]. *)
Definition melted_table (t : LengthTable) : list (LongRow value) :=
  flat_map
    (fun gc : string * list Q =>
       map (fun p : string * Q =>
              mkLong (VStr (fst p)) (fst gc)
                     (VNum (recovery (hd 0%Q (snd gc)) (snd p))))
           (combine (sample_ids t) (tl (snd gc))))
    (gene_columns t).

(** The (sample, gene) pairs of the long form, as strings. *)
Definition table_keys (t : LengthTable) : list (string * string) :=
  flat_map (fun gc : string * list Q =>
              map (fun sid => (sid, fst gc)) (sample_ids t))
           (gene_columns t).

Definition skey_eqb (p q : string * string) : bool :=
  String.eqb (fst p) (fst q) && String.eqb (snd p) (snd q).

(** The labels of the pivoted matrix and the matrix itself. *)
Definition sorted_samples (t : LengthTable) : list string :=
  sort String.leb (unique String.eqb (map fst (table_keys t))).

Definition sorted_genes (t : LengthTable) : list string :=
  sort String.leb (unique String.eqb (map snd (table_keys t))).

Definition table_matrix (t : LengthTable) : Matrix :=
  mkMatrix (map VStr (sorted_samples t)) (sorted_genes t)
    (map (fun sid =>
            map (fun g => pivot_cell (long_of_table t) (VStr sid) g)
                (sorted_genes t))
         (sorted_samples t)).

(** ** Reading the trace *)

Definition is_savefig (c : call) : bool :=
  match c with
  | plt_savefig _ _ _ => true
  | _ => false
  end.

(** Whether an image file was written. *)
Definition image_written (tr : list call) : bool := existsb is_savefig tr.

Definition heatmap_calls (tr : list call)
  : list (Matrix * option Q * option Q * string) :=
  flat_map (fun c =>
              match c with
              | sns_heatmap d lo hi cm => [(d, lo, hi, cm)]
              | _ => []
              end) tr.

(** seaborn anchors the colormap at [vmin] and [vmax] and, where one is not
    given, takes the smallest or largest cell of the data that is not
    [nan]. *)
Definition finite_cells (m : Matrix) : list Q :=
  flat_map (fun row =>
              flat_map (fun x => match x with Fin q => [q] | _ => [] end) row)
           (values m).

Definition Qmaximum (l : list Q) : option Q :=
  match l with
  | [] => None
  | q :: l' => Some (fold_left (fun a b => if Qle_bool a b then b else a) l' q)
  end.

Definition Qminimum (l : list Q) : option Q :=
  match l with
  | [] => None
  | q :: l' => Some (fold_left (fun a b => if Qle_bool b a then b else a) l' q)
  end.

Definition color_limits (data : Matrix) (vmin vmax : option Q)
  : option Q * option Q :=
  (match vmin with Some v => Some v | None => Qminimum (finite_cells data) end,
   match vmax with Some v => Some v | None => Qmaximum (finite_cells data) end).

(** The four components of the tuple [get_figure_dimensions] returns. *)
Definition fig_length_of (d : Q * Q * Z * Z) : Q := fst (fst (fst d)).
Definition figure_height_of (d : Q * Q * Z * Z) : Q := snd (fst (fst d)).
Definition sample_text_size_of (d : Q * Q * Z * Z) : Z := snd (fst d).
Definition gene_id_text_size_of (d : Q * Q * Z * Z) : Z := snd d.

(** The calls of lines 198-214, for the matrix [m]. *)
Definition render_calls (m : Matrix) (args : Args) : list call :=
  let d := get_figure_dimensions m (figure_length args) (figure_height args)
             (sample_text_size args) (gene_text_size args) in
  [ sns_set_figsize (fig_length_of d) (figure_height_of d);
    sns_set_style "ticks";
    sns_heatmap m (Some 0%Q) None "bone_r";
    tick_params "x" (gene_id_text_size_of d);
    tick_params "y" (sample_text_size_of d);
    set_yticklabels 0;
    set_xlabel "Gene name" 14 "bold" 20;
    set_ylabel "Sample name" 14 "bold" 20;
    plt_title
      "Percentage length recovery for each gene, relative to mean of targetfile references"
      14 "bold" (105 # 100);
    plt_savefig (path_to_output_heatmap args) (heatmap_dpi args) "tight" ].

(** ** Example tables *)

Definition no_parse : string -> option num := fun _ => None.

(** The table of the worked example: header [hdr geneA geneB], reference
    [100 200], [Sample1 50 200], [Sample2 150 50]. *)
Definition example_table (hdr : string) : LengthTable :=
  mkTable hdr ["MeanLength"; "Sample1"; "Sample2"]
    [("geneA", [100; 50; 150]%Q); ("geneB", [200; 200; 50]%Q)].

(** The same rows and columns in another order. *)
Definition unsorted_table : LengthTable :=
  mkTable "Species" ["MeanLength"; "Sample2"; "Sample1"]
    [("geneB", [200; 50; 200]%Q); ("geneA", [100; 150; 50]%Q)].

(** A gene with reference length zero. *)
Definition zero_reference_table : LengthTable :=
  mkTable "Species" ["MeanLength"; "Sample1"; "Sample2"]
    [("geneA", [0; 50; 0]%Q); ("geneB", [200; 200; 50]%Q)].

(** No gene recovered beyond half of its reference. *)
Definition half_table : LengthTable :=
  mkTable "Species" ["MeanLength"; "Sample1"; "Sample2"]
    [("geneA", [100; 50; 25]%Q); ("geneB", [200; 100; 0]%Q)].

(** Two sample rows with the same identifier. *)
Definition duplicate_table : LengthTable :=
  mkTable "Species" ["MeanLength"; "Sample1"; "Sample1"]
    [("geneA", [100; 50; 150]%Q); ("geneB", [200; 200; 50]%Q)].

Definition one_file (name : string) (t : LengthTable) : FileSystem :=
  fun p => if String.eqb p name then Some (Ok (frame_of_table t)) else None.

Definition default_args : Args :=
  mkArgs "seq_lengths.tsv" None "recovery_heatmap" None None None None "png" 150.

(** Every override given as [0]. *)
Definition zero_override_args : Args :=
  mkArgs "seq_lengths.tsv" None "recovery_heatmap"
    (Some 0) (Some 0) (Some 0) (Some 0) "png" 150.

Definition example_matrix : Matrix := table_matrix (example_table "Species").

(** ** Variations of a table *)

(** The same table with another identifier in its reference row. *)
Definition rename_reference (name : string) (t : LengthTable) : LengthTable :=
  mkTable (id_header t) (name :: tl (ids t)) (gene_columns t).

(** [t'] has the gene columns of [t] in the same order, each with the
    same reference cell and the same pairs of sample identifier and length:
    the sample rows of [t], in any order. *)
Definition same_sample_rows (t t' : LengthTable) : Prop :=
  Forall2
    (fun gc gc' : string * list Q =>
       fst gc' = fst gc
       /\ hd 0%Q (snd gc') = hd 0%Q (snd gc)
       /\ Permutation (combine (sample_ids t') (tl (snd gc')))
                      (combine (sample_ids t) (tl (snd gc))))
    (gene_columns t) (gene_columns t').

(** An override that is not given, or is given and positive. *)
Definition unset_or_positive (x : option Z) : bool :=
  match x with
  | Some v => 0 <? v
  | None => true
  end.


(** ** Binary64

    What lines 173 and 176 compute for one sample cell [s] and the reference
    cell [r] of its gene when both are [int64]: [div] converts the two cells
    to binary64, rounding to nearest even, and divides there; the cell is
    kept where it compares below 1 and is 1 elsewhere. *)

Module B64.

Definition prec : Z := 53.
Definition emax : Z := 1024.


Definition div (x y : SpecFloat.spec_float) : SpecFloat.spec_float :=
  SpecFloat.SFdiv prec emax x y.

Definition ltb (x y : SpecFloat.spec_float) : bool := SpecFloat.SFltb x y.




End B64.




(** ** How [pd.read_csv] types the first column

    [pd.read_csv] makes a column numeric or boolean when every field of it
    reads as such, and turns the fields it takes for missing values into
    [nan].  Otherwise every field stays the string it is.  A letter that
    occurs in no numeric or boolean literal is enough to keep a field, and
    with it the column, textual. *)

Definition text_letters : string := "ghkmqvwzGHKMQVWZ".

Fixpoint occurs_in (c : ascii) (s : string) : bool :=
  match s with
  | EmptyString => false
  | String c' s' => Ascii.eqb c c' || occurs_in c s'
  end.

Fixpoint has_text_letter (s : string) : bool :=
  match s with
  | EmptyString => false
  | String c s' => occurs_in c text_letters || has_text_letter s'
  end.

(** The fields [pd.read_csv] reads as missing values by default. *)
Definition na_values : list string :=
  [ ""; "#N/A"; "#N/A N/A"; "#NA"; "-1.#IND"; "-1.#QNAN"; "-NaN"; "-nan";
    "1.#IND"; "1.#QNAN"; "<NA>"; "N/A"; "NA"; "NULL"; "NaN"; "None"; "n/a";
    "nan"; "null" ].

(** Some identifier holds a letter of no number, and none reads as a
    missing value: every identifier of the column is read as the string it
    is. *)
Definition text_identifiers (t : LengthTable) : bool :=
  existsb has_text_letter (ids t)
  && forallb (fun i => negb (mem String.eqb i na_values)) (ids t).

(** The lengths of the sample rows, the reference row left aside, are not
    negative. *)
Definition samples_nonnegative (t : LengthTable) : bool :=
  forallb (fun gc : string * list Q => forallb (Qle_bool 0) (tl (snd gc)))
          (gene_columns t).

(** A negative value in the reference row. *)
Definition negative_reference_table : LengthTable :=
  mkTable "Species" ["MeanLength"; "Sample1"] [("geneA", [-100; 50]%Q)].

(** * Properties *)

(** ** Lists of labels *)

Section LabelFacts.
Context {A : Type}.
Variable eqb : A -> A -> bool.
Hypothesis eqb_spec : forall a b, eqb a b = true <-> a = b.

Lemma mem_In (a : A) (l : list A) : mem eqb a l = true <-> In a l.
Proof.
  unfold mem. rewrite existsb_exists. split.
  - intros (b & Hb & E). apply eqb_spec in E. now subst.
  - intros H. exists a. split; [assumption | now apply eqb_spec].
Qed.

Lemma has_duplicates_false (l : list A) :
  has_duplicates eqb l = false <-> NoDup l.
Proof.
  induction l as [|a l IH]; simpl.
  - split; [constructor | reflexivity].
  - rewrite orb_false_iff, IH, NoDup_cons_iff.
    rewrite <- mem_In. destruct (mem eqb a l); intuition congruence.
Qed.

Lemma has_duplicates_true (l : list A) :
  has_duplicates eqb l = true <-> ~ NoDup l.
Proof.
  rewrite <- has_duplicates_false.
  destruct (has_duplicates eqb l); intuition congruence.
Qed.

Lemma In_unique (x : A) (l : list A) : In x (unique eqb l) <-> In x l.
Proof.
  induction l as [|a l IH]; simpl; [tauto|].
  rewrite filter_In, IH. split.
  - tauto.
  - intros [E | H]; [now left|].
    destruct (eqb a x) eqn:E.
    + left. now apply eqb_spec.
    + right. now split.
Qed.

Lemma NoDup_unique (l : list A) : NoDup (unique eqb l).
Proof.
  induction l as [|a l IH]; simpl; constructor.
  - rewrite filter_In. intros [_ H].
    assert (E : eqb a a = true) by now apply eqb_spec.
    rewrite E in H. discriminate.
  - now apply NoDup_filter.
Qed.

Lemma position_In (a : A) (l : list A) :
  In a l -> exists n, position eqb a l = Some n /\ nth_error l n = Some a.
Proof.
  induction l as [|b l IH]; simpl; [tauto|].
  intros H. destruct (eqb a b) eqn:E.
  - apply eqb_spec in E. subst. now exists O.
  - destruct H as [H | H].
    + subst. assert (E' : eqb a a = true) by now apply eqb_spec.
      congruence.
    + destruct (IH H) as (n & Hp & Hn). exists (S n). now rewrite Hp.
Qed.
End LabelFacts.

Section SortFacts.
Context {A : Type}.
Variable leb : A -> A -> bool.

Lemma insert_perm (a : A) (l : list A) : Permutation (insert leb a l) (a :: l).
Proof.
  induction l as [|b l IH]; simpl; [reflexivity|].
  destruct (leb a b); [reflexivity|].
  rewrite IH. apply perm_swap.
Qed.

Lemma sort_perm (l : list A) : Permutation (sort leb l) l.
Proof.
  induction l as [|a l IH]; simpl; [reflexivity|].
  rewrite insert_perm. now constructor.
Qed.

Hypothesis leb_total : forall a b, leb a b = true \/ leb b a = true.

Lemma insert_sorted (a : A) (l : list A) :
  Sorted (fun x y => leb x y = true) l ->
  Sorted (fun x y => leb x y = true) (insert leb a l).
Proof.
  induction 1 as [|b l Hs IH Hb]; simpl.
  - repeat constructor.
  - destruct (leb a b) eqn:E.
    + repeat constructor; assumption.
    + constructor; [assumption|].
      destruct (leb_total a b) as [T | T]; [congruence|].
      destruct Hb as [|c l Hbc]; simpl.
      * now constructor.
      * destruct (leb a c); now constructor.
Qed.

Lemma sort_sorted (l : list A) : Sorted (fun x y => leb x y = true) (sort leb l).
Proof.
  induction l as [|a l IH]; simpl; [constructor | now apply insert_sorted].
Qed.
End SortFacts.

Lemma string_eqb_spec (a b : string) : String.eqb a b = true <-> a = b.
Proof. apply String.eqb_eq. Qed.

(** Labels that are all strings are compared and sorted as strings. *)

Lemma unique_VStr (l : list string) :
  unique value_eqb (map VStr l) = map VStr (unique String.eqb l).
Proof.
  induction l as [|a l IH]; simpl; [reflexivity|].
  rewrite IH. clear IH. f_equal.
  induction (unique String.eqb l) as [|b u IHu]; simpl; [reflexivity|].
  destruct (String.eqb a b); simpl; now rewrite IHu.
Qed.

Lemma sort_VStr (l : list string) :
  sort value_leb (map VStr l) = map VStr (sort String.leb l).
Proof.
  induction l as [|a l IH]; simpl; [reflexivity|].
  rewrite IH. clear IH.
  induction (sort String.leb l) as [|b u IHu]; simpl; [reflexivity|].
  destruct (String.leb a b); simpl; [reflexivity | now rewrite IHu].
Qed.

Lemma position_VStr (s : string) (l : list string) :
  position value_eqb (VStr s) (map VStr l) = position String.eqb s l.
Proof.
  induction l as [|b l IH]; simpl; [reflexivity|].
  destruct (String.eqb s b); [reflexivity | now rewrite IH].
Qed.


(** ** One cell: division by the reference, then the cap *)

Lemma Qlt_bool_iff (x y : Q) : Qlt_bool x y = true <-> (x < y)%Q.
Proof.
  unfold Qlt_bool. rewrite negb_true_iff, <- not_true_iff_false, Qle_bool_iff.
  split; [apply Qnot_le_lt | apply Qlt_not_le].
Qed.

Lemma div_positive_reference (r s : Q) :
  (0 < r)%Q -> Num.div (Fin s) (Fin r) = Fin (Qred (s / r)).
Proof.
  intros Hr. simpl.
  destruct (Qeq_bool r 0) eqn:E; [|reflexivity].
  apply Qeq_bool_iff in E. rewrite E in Hr. now apply Qlt_irrefl in Hr.
Qed.

Lemma recovery_below (r s : Q) :
  (0 < r)%Q -> (s < r)%Q -> recovery r s = Fin (Qred (s / r)).
Proof.
  intros Hr Hs. unfold recovery. rewrite div_positive_reference by assumption.
  unfold clamp, of_Z, Num.ltb.
  assert (L : Qlt_bool (Qred (s / r)) (inject_Z 1) = true).
  { apply Qlt_bool_iff. rewrite Qred_correct.
    apply Qlt_shift_div_r; [assumption|].
    change (inject_Z 1) with 1%Q. now rewrite Qmult_1_l. }
  now rewrite L.
Qed.

Lemma recovery_capped (r s : Q) :
  (0 < r)%Q -> (r <= s)%Q -> recovery r s = Fin 1.
Proof.
  intros Hr Hs. unfold recovery. rewrite div_positive_reference by assumption.
  unfold clamp, of_Z, Num.ltb.
  assert (L : Qlt_bool (Qred (s / r)) (inject_Z 1) = false).
  { apply not_true_iff_false. rewrite Qlt_bool_iff, Qred_correct.
    apply Qle_not_lt. apply Qle_shift_div_l; [assumption|].
    change (inject_Z 1) with 1%Q. now rewrite Qmult_1_l. }
  now rewrite L.
Qed.

Lemma recovery_zero_reference (r s : Q) :
  (r == 0)%Q -> (0 <= s)%Q -> recovery r s = Fin 1.
Proof.
  intros Hr Hs. unfold recovery. simpl.
  apply Qeq_bool_iff in Hr. rewrite Hr.
  destruct (Qcompare s 0) eqn:C; try reflexivity.
  apply Qlt_alt in C. now apply Qle_not_lt in Hs.
Qed.

Lemma recovery_unit_interval (r s : Q) :
  (0 <= r)%Q -> (0 <= s)%Q ->
  exists q, recovery r s = Fin q /\ (0 <= q)%Q /\ (q <= 1)%Q.
Proof.
  intros Hr Hs.
  destruct (Qeq_dec r 0) as [Z0 | NZ].
  - exists 1%Q. split; [now apply recovery_zero_reference|].
    split; discriminate.
  - assert (Hr' : (0 < r)%Q).
    { apply Qle_lteq in Hr. destruct Hr as [H | H]; [assumption|].
      exfalso. apply NZ. now symmetry. }
    destruct (Qlt_le_dec s r) as [L | G].
    + exists (Qred (s / r)). split; [now apply recovery_below|].
      rewrite Qred_correct. split.
      * apply Qle_shift_div_l; [assumption|]. now rewrite Qmult_0_l.
      * apply Qle_shift_div_r; [assumption|]. rewrite Qmult_1_l.
        now apply Qlt_le_weak.
    + exists 1%Q. split; [now apply recovery_capped|].
      split; discriminate.
Qed.

(** ** From the table to the long form (lines 173-185) *)

Lemma mapM_map_Ok {A B C} (f : B -> result C) (F : A -> B) (h : A -> C)
  (l : list A) :
  (forall a, In a l -> f (F a) = Ok (h a)) ->
  mapM f (map F l) = Ok (map h l).
Proof.
  induction l as [|a l IH]; intros H; simpl; [reflexivity|].
  rewrite (H a) by now left. simpl.
  rewrite IH by (intros; apply H; now right). reflexivity.
Qed.

Lemma tl_map {A B} (f : A -> B) (l : list A) : tl (map f l) = map f (tl l).
Proof. now destruct l. Qed.

Lemma shaped_inv (t : LengthTable) :
  shaped t = true ->
  (1 <= List.length (ids t))%nat
  /\ (1 <= List.length (gene_columns t))%nat
  /\ (forall gc, In gc (gene_columns t) ->
        List.length (snd gc) = List.length (ids t))
  /\ NoDup (id_header t :: gene_names t).
Proof.
  unfold shaped, rectangular.
  rewrite !andb_true_iff, negb_true_iff, !Nat.leb_le,
    forallb_forall, (has_duplicates_false _ string_eqb_spec).
  intros (((H2 & H3) & H4) & H5). repeat split; try assumption.
  intros gc Hgc. apply Nat.eqb_eq. now apply H4.
Qed.

Lemma readable_inv (t : LengthTable) :
  readable t = true -> id_header t = "Species" /\ shaped t = true.
Proof.
  unfold readable. now rewrite andb_true_iff, String.eqb_eq.
Qed.

Lemma series_div_first_numeric (col : list Q) :
  col <> [] ->
  series_div_first (map (fun q => VNum (Fin q)) col)
  = Ok (map (fun q => VNum (Num.div (Fin q) (Fin (hd 0%Q col)))) col).
Proof.
  destruct col as [|r ss]; [congruence|]. intros _.
  unfold series_div_first. cbn [map hd mapM value_div rbind].
  rewrite (mapM_map_Ok _ _ (fun q => VNum (Num.div (Fin q) (Fin r)))).
  - reflexivity.
  - intros q _. reflexivity.
Qed.

Lemma div_by_first_row_table (t : LengthTable) :
  shaped t = true ->
  div_by_first_row (frame_of_table t) = Ok (ratio_frame t).
Proof.
  intros R. destruct (shaped_inv t R) as (Hi & Hg & Hlen & _).
  unfold frame_of_table, ratio_frame.
  match goal with
  | |- div_by_first_row (_ :: map ?F _) = Ok (_ :: map ?G _) =>
      assert (E : mapM (fun c : string * Series =>
                          col <- series_div_first (snd c) ;; Ok (fst c, col))%result
                       (map F (gene_columns t))
                  = Ok (map G (gene_columns t)))
  end.
  { apply mapM_map_Ok. intros [g col] Hin. cbn [fst snd].
    specialize (Hlen _ Hin). cbn [snd] in Hlen.
    rewrite series_div_first_numeric; [reflexivity|].
    intros ->. simpl in Hlen. lia. }
  destruct (gene_columns t) as [|gc0 gcs]; [simpl in Hg; lia|].
  destruct (ids t) as [|i0 is_]; [simpl in Hi; lia|].
  cbn [map] in *. unfold div_by_first_row. cbn [nrows List.length].
  rewrite E. reflexivity.
Qed.

Lemma where_cell_recovery (r q : Q) :
  where_cell (VNum (Num.div (Fin q) (Fin r))) = Ok (VNum (recovery r q)).
Proof.
  unfold where_cell, recovery, clamp.
  now destruct (Num.ltb (Num.div (Fin q) (Fin r)) (of_Z 1)).
Qed.

Lemma where_lt_one_table (t : LengthTable) :
  shaped t = true ->
  where_lt_one (ratio_frame t) = Ok (capped_frame t).
Proof.
  intros R. destruct (shaped_inv t R) as (_ & Hg & _ & _).
  unfold ratio_frame, capped_frame.
  match goal with
  | |- where_lt_one (_ :: map ?F _) = Ok (_ :: map ?G _) =>
      assert (E : mapM (fun c : string * Series =>
                          col <- mapM where_cell (snd c) ;; Ok (fst c, col))%result
                       (map F (gene_columns t))
                  = Ok (map G (gene_columns t)))
  end.
  { apply mapM_map_Ok. intros [g col] _. cbn [fst snd].
    erewrite mapM_map_Ok; [reflexivity|].
    intros q _. apply where_cell_recovery. }
  destruct (gene_columns t) as [|gc0 gcs]; [simpl in Hg; lia|].
  cbn [map] in *. unfold where_lt_one. rewrite E. reflexivity.
Qed.

Lemma drop_label_0_table (t : LengthTable) :
  shaped t = true ->
  drop_label_0 (capped_frame t) = Ok (sample_frame t).
Proof.
  intros R. destruct (shaped_inv t R) as (Hi & _ & _ & _).
  unfold drop_label_0, capped_frame, sample_frame, sample_ids, nrows.
  rewrite length_map.
  destruct (List.length (ids t)) eqn:L; [lia|].
  cbn [map fst snd]. rewrite tl_map, map_map. do 2 f_equal.
  apply map_ext. intros [g col]. cbn [fst snd]. now rewrite tl_map.
Qed.

Lemma combine_map2 {A B C D} (f : A -> C) (g : B -> D) (l1 : list A) (l2 : list B) :
  combine (map f l1) (map g l2)
  = map (fun p => (f (fst p), g (snd p))) (combine l1 l2).
Proof.
  revert l2. induction l1 as [|a l1 IH]; intros [|b l2]; simpl; try reflexivity.
  now rewrite IH.
Qed.

Lemma map_of_flat_map {A B C} (h : B -> C) (f : A -> list B) (l : list A) :
  map h (flat_map f l) = flat_map (fun a => map h (f a)) l.
Proof.
  induction l as [|a l IH]; simpl; [reflexivity|].
  now rewrite map_app, IH.
Qed.

Lemma flat_map_of_map {A B C} (f : B -> list C) (g : A -> B) (l : list A) :
  flat_map f (map g l) = flat_map (fun a => f (g a)) l.
Proof.
  induction l as [|a l IH]; simpl; [reflexivity|]. now rewrite IH.
Qed.

Lemma gene_name_not_header (t : LengthTable) (gc : string * list Q) :
  shaped t = true -> In gc (gene_columns t) -> fst gc <> id_header t.
Proof.
  intros R Hin. destruct (shaped_inv t R) as (_ & _ & _ & Hnd).
  apply NoDup_cons_iff in Hnd. destruct Hnd as [Hnot _].
  intros E. apply Hnot. rewrite <- E. unfold gene_names. now apply in_map.
Qed.

Lemma filter_gene_columns {B} (p : string -> bool) (G : string * list Q -> string * B)
  (l : list (string * list Q)) :
  (forall gc, In gc l -> p (fst (G gc)) = true) ->
  filter (fun c => p (fst c)) (map G l) = map G l.
Proof.
  induction l as [|gc l IH]; intros H; [reflexivity|].
  cbn [map filter]. rewrite (H gc) by now left.
  f_equal. apply IH. intros gc' Hin. apply H. now right.
Qed.

Lemma melt_table (t : LengthTable) :
  readable t = true -> melt (sample_frame t) = Ok (melted_table t).
Proof.
  intros R. destruct (readable_inv t R) as (Hh & Hs).
  unfold melt, sample_frame, melted_table.
  cbn [find fst filter]. rewrite Hh. cbn [String.eqb Ascii.eqb Bool.eqb negb].
  f_equal.
  rewrite (filter_gene_columns (fun n => negb (String.eqb n "Species"))).
  - rewrite flat_map_of_map. apply flat_map_ext. intros [g col].
    cbn [fst snd]. rewrite combine_map2, map_map. reflexivity.
  - intros gc Hin. cbn [fst]. apply negb_true_iff, String.eqb_neq.
    rewrite <- Hh. now apply gene_name_not_header.
Qed.

(** Without a column called [Species], [melt] raises [KeyError]. *)
Lemma melt_no_Species (t : LengthTable) :
  shaped t = true -> id_header t <> "Species" ->
  ~ In "Species" (gene_names t) ->
  melt (sample_frame t) = Raise KeyError.
Proof.
  intros Hs Hh Hg. unfold melt, sample_frame. cbn [find fst].
  apply String.eqb_neq in Hh. rewrite Hh.
  match goal with
  | |- match find ?p ?l with _ => _ end = _ =>
      assert (E : find p l = None)
  end.
  { unfold gene_names in Hg.
    induction (gene_columns t) as [|gc gcs IH]; [reflexivity|].
    cbn [map find fst]. destruct (String.eqb (fst gc) "Species") eqn:E.
    - exfalso. apply Hg. left. now apply String.eqb_eq.
    - apply IH. intros Hin. apply Hg. now right. }
  now rewrite E.
Qed.

Lemma mapM_Ok {A B} (f : A -> result B) (h : A -> B) (l : list A) :
  (forall a, In a l -> f a = Ok (h a)) -> mapM f l = Ok (map h l).
Proof.
  intros H. rewrite <- (map_id l) at 1. now apply mapM_map_Ok.
Qed.

Lemma apply_to_numeric_table (parse : string -> option num) (t : LengthTable) :
  apply_to_numeric parse (melted_table t) = Ok (long_of_table t).
Proof.
  unfold apply_to_numeric.
  rewrite (mapM_Ok _ (fun r => mkLong (Species r) (gene_id r)
                                 match percentage_recovery r with
                                 | VNum x => x
                                 | VStr _ => NaN
                                 end)).
  - unfold melted_table, long_of_table. rewrite map_of_flat_map.
    f_equal. apply flat_map_ext. intros gc. now rewrite map_map.
  - intros r Hin. unfold melted_table in Hin.
    apply in_flat_map in Hin. destruct Hin as (gc & _ & Hin).
    apply in_map_iff in Hin. destruct Hin as (p & <- & _). reflexivity.
Qed.

(** Lines 173-188 on a readable table. *)
Lemma recovery_matrix_table (parse : string -> option num) (t : LengthTable) :
  readable t = true ->
  recovery_matrix parse (frame_of_table t) = pivot (long_of_table t).
Proof.
  intros R. destruct (readable_inv t R) as (_ & Hs). unfold recovery_matrix.
  rewrite (div_by_first_row_table t Hs). cbn [rbind].
  rewrite (where_lt_one_table t Hs). cbn [rbind].
  rewrite (drop_label_0_table t Hs). cbn [rbind].
  rewrite (melt_table t R). cbn [rbind].
  rewrite apply_to_numeric_table. reflexivity.
Qed.

Lemma recovery_matrix_no_Species (parse : string -> option num) (t : LengthTable) :
  shaped t = true -> id_header t <> "Species" ->
  ~ In "Species" (gene_names t) ->
  recovery_matrix parse (frame_of_table t) = Raise KeyError.
Proof.
  intros Hs Hh Hg. unfold recovery_matrix.
  rewrite (div_by_first_row_table t Hs). cbn [rbind].
  rewrite (where_lt_one_table t Hs). cbn [rbind].
  rewrite (drop_label_0_table t Hs). cbn [rbind].
  now rewrite (melt_no_Species t Hs Hh Hg).
Qed.

(** ** The long form of a table: rows, labels and keys *)

Lemma combine_fst_same_length {A B} (l1 : list A) (l2 : list B) :
  List.length l1 = List.length l2 -> map fst (combine l1 l2) = l1.
Proof.
  revert l2. induction l1 as [|a l1 IH]; intros [|b l2] H; simpl in *;
    try reflexivity; try discriminate.
  f_equal. apply IH. now injection H.
Qed.

Lemma length_tl {A} (l : list A) : List.length (tl l) = pred (List.length l).
Proof. now destruct l. Qed.

Lemma flat_map_ext_In {A B} (f g : A -> list B) (l : list A) :
  (forall a, In a l -> f a = g a) -> flat_map f l = flat_map g l.
Proof.
  induction l as [|a l IH]; intros H; simpl; [reflexivity|].
  rewrite (H a) by now left. f_equal. apply IH. intros; apply H; now right.
Qed.

Lemma sample_cells_length (t : LengthTable) (gc : string * list Q) :
  shaped t = true -> In gc (gene_columns t) ->
  List.length (sample_ids t) = List.length (tl (snd gc)).
Proof.
  intros Hs Hin. destruct (shaped_inv t Hs) as (_ & _ & Hlen & _).
  unfold sample_ids. rewrite !length_tl. now rewrite (Hlen gc Hin).
Qed.

Lemma In_long_of_table (t : LengthTable) (r : LongRow num) :
  In r (long_of_table t) <->
  exists gc p, In gc (gene_columns t)
               /\ In p (combine (sample_ids t) (tl (snd gc)))
               /\ r = mkLong (VStr (fst p)) (fst gc)
                             (recovery (hd 0%Q (snd gc)) (snd p)).
Proof.
  unfold long_of_table. rewrite in_flat_map. split.
  - intros (gc & Hgc & Hr). apply in_map_iff in Hr.
    destruct Hr as (p & <- & Hp). now exists gc, p.
  - intros (gc & p & Hgc & Hp & ->). exists gc. split; [assumption|].
    apply in_map_iff. now exists p.
Qed.

Lemma long_keys_of_table (t : LengthTable) :
  shaped t = true ->
  map long_key (long_of_table t)
  = map (fun p : string * string => (VStr (fst p), snd p)) (table_keys t).
Proof.
  intros Hs. unfold long_of_table, table_keys.
  rewrite !map_of_flat_map. apply flat_map_ext_In. intros gc Hin.
  rewrite !map_map. unfold long_key. cbn [Species gene_id fst snd].
  rewrite <- (combine_fst_same_length (sample_ids t) (tl (snd gc))) at 2
    by now apply sample_cells_length.
  now rewrite map_map.
Qed.

Lemma has_duplicates_map {A B} (eqA : A -> A -> bool) (eqB : B -> B -> bool)
  (f : A -> B) (l : list A) :
  (forall a b, eqB (f a) (f b) = eqA a b) ->
  has_duplicates eqB (map f l) = has_duplicates eqA l.
Proof.
  intros H. induction l as [|a l IH]; simpl; [reflexivity|].
  rewrite IH. f_equal. unfold mem. clear IH.
  induction l as [|b l IH]; simpl; [reflexivity|]. now rewrite H, IH.
Qed.

Lemma skey_eqb_spec (p q : string * string) : skey_eqb p q = true <-> p = q.
Proof.
  unfold skey_eqb. rewrite andb_true_iff, !String.eqb_eq.
  destruct p, q; simpl. split; [intros [-> ->] | intros [= -> ->]]; auto.
Qed.

Lemma pivot_table (t : LengthTable) :
  shaped t = true ->
  pivot (long_of_table t)
  = if has_duplicates skey_eqb (table_keys t) then Raise ValueError
    else Ok (table_matrix t).
Proof.
  intros Hs. unfold pivot.
  rewrite (long_keys_of_table t Hs).
  rewrite (has_duplicates_map skey_eqb) by reflexivity.
  destruct (has_duplicates skey_eqb (table_keys t)); [reflexivity|].
  assert (ES : map Species (long_of_table t)
               = map VStr (map fst (table_keys t))).
  { change (@Species num) with (fun r : LongRow num => fst (long_key r)).
    rewrite <- (map_map long_key fst), (long_keys_of_table t Hs).
    now rewrite !map_map. }
  assert (EG : map gene_id (long_of_table t) = map snd (table_keys t)).
  { change (@gene_id num) with (fun r : LongRow num => snd (long_key r)).
    rewrite <- (map_map long_key snd), (long_keys_of_table t Hs).
    now rewrite !map_map. }
  rewrite ES, EG, unique_VStr, sort_VStr.
  unfold table_matrix, sorted_samples, sorted_genes.
  now rewrite map_map.
Qed.

Lemma NoDup_pair_with {A B} (b : B) (l : list A) :
  NoDup (map (fun a => (a, b)) l) <-> NoDup l.
Proof.
  split.
  - apply NoDup_map_inv.
  - induction 1 as [|a l Hn Hd IH]; simpl; constructor; [|assumption].
    rewrite in_map_iff. intros (a' & [= ->] & Hin). contradiction.
Qed.

Lemma keys_NoDup (sids : list string) (genes : list (string * list Q)) :
  NoDup (map fst genes) -> NoDup sids ->
  NoDup (flat_map (fun gc : string * list Q =>
                     map (fun sid => (sid, fst gc)) sids) genes).
Proof.
  intros Hg Hs. induction genes as [|gc genes IH]; simpl; [constructor|].
  simpl in Hg. apply NoDup_cons_iff in Hg. destruct Hg as [Hnot Hg].
  apply NoDup_app.
  - now apply NoDup_pair_with.
  - now apply IH.
  - intros [sid g] H1 H2.
    apply in_map_iff in H1. destruct H1 as (sid' & E1 & _).
    apply in_flat_map in H2. destruct H2 as (gc' & Hgc' & H2).
    apply in_map_iff in H2. destruct H2 as (sid'' & E2 & _).
    injection E1 as _ E1. injection E2 as _ E2.
    apply Hnot. rewrite E1, <- E2. now apply in_map.
Qed.

Lemma table_keys_NoDup (t : LengthTable) :
  shaped t = true -> NoDup (sample_ids t) -> NoDup (table_keys t).
Proof.
  intros Hs Hd. destruct (shaped_inv t Hs) as (_ & _ & _ & Hn).
  apply NoDup_cons_iff in Hn. now apply keys_NoDup.
Qed.

Lemma table_keys_NoDup_inv (t : LengthTable) :
  shaped t = true -> NoDup (table_keys t) -> NoDup (sample_ids t).
Proof.
  intros Hs Hk. destruct (shaped_inv t Hs) as (_ & Hg & _ & _).
  unfold table_keys in Hk.
  destruct (gene_columns t) as [|gc genes]; [simpl in Hg; lia|].
  simpl in Hk. apply NoDup_app_remove_r in Hk.
  now apply NoDup_pair_with in Hk.
Qed.

Lemma In_table_keys (t : LengthTable) (sid g : string) :
  In (sid, g) (table_keys t) <-> In sid (sample_ids t) /\ In g (gene_names t).
Proof.
  unfold table_keys, gene_names. rewrite in_flat_map. split.
  - intros (gc & Hgc & H). apply in_map_iff in H.
    destruct H as (sid' & [= <- <-] & Hsid). split; [assumption|].
    now apply in_map.
  - intros [Hsid Hg]. apply in_map_iff in Hg. destruct Hg as (gc & <- & Hgc).
    exists gc. split; [assumption|]. apply in_map_iff. now exists sid.
Qed.

Lemma samples_distinct_inv (t : LengthTable) :
  samples_distinct t = true ->
  (2 <= List.length (ids t))%nat /\ NoDup (sample_ids t).
Proof.
  unfold samples_distinct.
  now rewrite andb_true_iff, negb_true_iff, Nat.leb_le,
    (has_duplicates_false _ string_eqb_spec).
Qed.

Lemma well_formed_inv (t : LengthTable) :
  well_formed t = true ->
  id_header t = "Species" /\ shaped t = true
  /\ (2 <= List.length (ids t))%nat /\ NoDup (sample_ids t).
Proof.
  unfold well_formed. rewrite andb_true_iff. intros [R D].
  apply readable_inv in R. apply samples_distinct_inv in D. tauto.
Qed.

(** On a well-formed table lines 173-188 return the matrix. *)
Lemma recovery_matrix_well_formed (parse : string -> option num)
  (t : LengthTable) :
  well_formed t = true ->
  recovery_matrix parse (frame_of_table t) = Ok (table_matrix t).
Proof.
  intros W. pose proof (well_formed_inv t W) as (Hh & Hs & _ & Hd).
  rewrite recovery_matrix_table, (pivot_table t Hs).
  - assert (E : has_duplicates skey_eqb (table_keys t) = false).
    { apply (has_duplicates_false _ skey_eqb_spec).
      now apply table_keys_NoDup. }
    now rewrite E.
  - unfold readable. now rewrite Hs, Hh.
Qed.

Lemma sample_ids_nonempty (t : LengthTable) :
  (2 <= List.length (ids t))%nat -> exists sid, In sid (sample_ids t).
Proof.
  unfold sample_ids. destruct (ids t) as [|i0 [|i1 l]]; simpl; try lia.
  intros _. exists i1. now left.
Qed.

Lemma In_sort {A} (leb : A -> A -> bool) (x : A) (l : list A) :
  In x (sort leb l) <-> In x l.
Proof.
  split; apply Permutation_in;
    [apply sort_perm | apply Permutation_sym, sort_perm].
Qed.

Lemma In_sorted_samples (t : LengthTable) (sid : string) :
  shaped t = true ->
  (In sid (sorted_samples t) <-> In sid (sample_ids t)).
Proof.
  intros Hs. destruct (shaped_inv t Hs) as (_ & Hg & _ & _).
  unfold sorted_samples.
  rewrite In_sort, (In_unique _ string_eqb_spec), in_map_iff. split.
  - intros ([sid' g] & E & H). simpl in E. subst sid'.
    now apply In_table_keys in H.
  - intros H. destruct (gene_columns t) as [|gc genes] eqn:G;
      [simpl in Hg; lia|].
    exists (sid, fst gc). split; [reflexivity|].
    apply In_table_keys. split; [assumption|].
    unfold gene_names. rewrite G. now left.
Qed.

Lemma In_sorted_genes (t : LengthTable) (g : string) :
  (2 <= List.length (ids t))%nat ->
  (In g (sorted_genes t) <-> In g (gene_names t)).
Proof.
  intros Hi. unfold sorted_genes.
  rewrite In_sort, (In_unique _ string_eqb_spec), in_map_iff. split.
  - intros ([sid g'] & E & H). simpl in E. subst g'.
    now apply In_table_keys in H.
  - intros H. destruct (sample_ids_nonempty t Hi) as (sid & Hsid).
    exists (sid, g). split; [reflexivity|]. now apply In_table_keys.
Qed.

Lemma NoDup_sorted_samples (t : LengthTable) : NoDup (sorted_samples t).
Proof.
  unfold sorted_samples.
  eapply Permutation_NoDup;
    [apply Permutation_sym, sort_perm | apply (NoDup_unique _ string_eqb_spec)].
Qed.

Lemma NoDup_sorted_genes (t : LengthTable) : NoDup (sorted_genes t).
Proof.
  unfold sorted_genes.
  eapply Permutation_NoDup;
    [apply Permutation_sym, sort_perm | apply (NoDup_unique _ string_eqb_spec)].
Qed.

(** *** Cells of the pivoted matrix *)

Lemma In_combine_exists {A B} (a : A) (l1 : list A) (l2 : list B) :
  List.length l1 = List.length l2 -> In a l1 ->
  exists b, In (a, b) (combine l1 l2).
Proof.
  revert l2. induction l1 as [|a1 l1 IH]; intros [|b2 l2] L H; simpl in *;
    try tauto; try discriminate.
  destruct H as [-> | H].
  - exists b2. now left.
  - injection L as L. destruct (IH l2 L H) as (b & Hb). exists b. now right.
Qed.

Lemma In_combine_nth_error {A B} (l1 : list A) (l2 : list B) (k : nat) a b :
  nth_error l1 k = Some a -> nth_error l2 k = Some b ->
  In (a, b) (combine l1 l2).
Proof.
  revert l1 l2. induction k as [|k IH]; intros [|a1 l1] [|b2 l2] H1 H2;
    simpl in *; try discriminate.
  - left. congruence.
  - right. now apply IH.
Qed.

Lemma NoDup_fst_functional {A B} (l : list (A * B)) a b b' :
  NoDup (map fst l) -> In (a, b) l -> In (a, b') l -> b = b'.
Proof.
  induction l as [|[a1 b1] l IH]; simpl; [tauto|].
  intros Hn H1 H2. apply NoDup_cons_iff in Hn. destruct Hn as [Hnot Hn].
  simpl in Hnot.
  destruct H1 as [E1 | H1], H2 as [E2 | H2].
  - congruence.
  - injection E1 as E1 _. subst a1. exfalso. apply Hnot.
    change a with (fst (a, b')). now apply in_map.
  - injection E2 as E2 _. subst a1. exfalso. apply Hnot.
    change a with (fst (a, b)). now apply in_map.
  - now apply IH.
Qed.

Lemma nth_error_tl {A} (l : list A) (k : nat) :
  nth_error (tl l) k = nth_error l (S k).
Proof. destruct l; [now destruct k | reflexivity]. Qed.

Lemma key_eqb_VStr (sid sid' g g' : string) :
  key_eqb (VStr sid, g) (VStr sid', g') = true <-> sid = sid' /\ g = g'.
Proof.
  unfold key_eqb. cbn [fst snd value_eqb].
  now rewrite andb_true_iff, !String.eqb_eq.
Qed.

(** Every looked-up cell is the recovery of some sample cell of the gene
    against the reference cell of that gene. *)
Lemma pivot_cell_found (t : LengthTable) (sid g : string) :
  shaped t = true -> In sid (sample_ids t) -> In g (gene_names t) ->
  exists col s, In (g, col) (gene_columns t)
                /\ In (sid, s) (combine (sample_ids t) (tl col))
                /\ pivot_cell (long_of_table t) (VStr sid) g
                   = recovery (hd 0%Q col) s.
Proof.
  intros Hs Hsid Hg. unfold pivot_cell.
  destruct (find _ (long_of_table t)) as [r|] eqn:F.
  - apply find_some in F. destruct F as [Hin Hk].
    apply In_long_of_table in Hin.
    destruct Hin as ([g' col] & [sid' s] & Hgc & Hp & ->).
    cbn [fst snd] in *. unfold long_key in Hk. cbn [Species gene_id] in Hk.
    apply key_eqb_VStr in Hk. destruct Hk as [<- <-].
    now exists col, s.
  - exfalso. unfold gene_names in Hg. apply in_map_iff in Hg.
    destruct Hg as ([g' col] & E & Hgc). simpl in E. subst g'.
    destruct (In_combine_exists sid (sample_ids t) (tl col)) as (s & Hp);
      [now apply (sample_cells_length t (g, col)) | assumption |].
    pose proof (find_none _ _ F
                  (mkLong (VStr sid) g (recovery (hd 0%Q col) s))) as N.
    unfold long_key in N. cbn [Species gene_id] in N.
    assert (K : key_eqb (VStr sid, g) (VStr sid, g) = true)
      by now apply key_eqb_VStr.
    rewrite N in K; [discriminate|].
    apply In_long_of_table. now exists (g, col), (sid, s).
Qed.

(** With distinct names the cell is that of the sample's own row. *)
Lemma pivot_cell_table (t : LengthTable) (k : nat) (sid g : string)
  (col : list Q) (s : Q) :
  well_formed t = true ->
  nth_error (ids t) (S k) = Some sid ->
  In (g, col) (gene_columns t) ->
  nth_error col (S k) = Some s ->
  pivot_cell (long_of_table t) (VStr sid) g = recovery (hd 0%Q col) s.
Proof.
  intros W Hsid Hgc Hcell.
  pose proof (well_formed_inv t W) as (_ & Hs & _ & Hd).
  destruct (shaped_inv t Hs) as (_ & _ & _ & Hn).
  apply NoDup_cons_iff in Hn. destruct Hn as [_ Hn].
  assert (Hp : In (sid, s) (combine (sample_ids t) (tl col))).
  { apply (In_combine_nth_error _ _ k); unfold sample_ids;
      now rewrite nth_error_tl. }
  destruct (pivot_cell_found t sid g Hs) as (col' & s' & Hgc' & Hp' & ->).
  - now apply in_combine_l in Hp.
  - unfold gene_names. change g with (fst (g, col)). now apply in_map.
  - assert (col' = col) by (eapply NoDup_fst_functional; eassumption).
    subst col'. f_equal.
    eapply (NoDup_fst_functional (combine (sample_ids t) (tl col)));
      [|eassumption|eassumption].
    rewrite combine_fst_same_length; [assumption|].
    now apply (sample_cells_length t (g, col)).
Qed.

Lemma matrix_get_table (t : LengthTable) (sid g : string) :
  In sid (sorted_samples t) -> In g (sorted_genes t) ->
  matrix_get (table_matrix t) (VStr sid) g
  = Some (pivot_cell (long_of_table t) (VStr sid) g).
Proof.
  intros Hsid Hg. unfold matrix_get, table_matrix. cbn [index columns values].
  rewrite position_VStr.
  destruct (position_In _ string_eqb_spec sid _ Hsid) as (n & -> & Hn).
  destruct (position_In _ string_eqb_spec g _ Hg) as (c & -> & Hc).
  rewrite (map_nth_error _ _ _ Hn).
  now rewrite (map_nth_error _ _ _ Hc).
Qed.

Lemma table_cell (t : LengthTable) (k : nat) (sid g : string)
  (col : list Q) (s : Q) :
  well_formed t = true ->
  nth_error (ids t) (S k) = Some sid ->
  In (g, col) (gene_columns t) ->
  nth_error col (S k) = Some s ->
  matrix_get (table_matrix t) (VStr sid) g = Some (recovery (hd 0%Q col) s).
Proof.
  intros W Hsid Hgc Hcell.
  pose proof (well_formed_inv t W) as (_ & Hs & Hi & _).
  rewrite matrix_get_table.
  - f_equal. now apply (pivot_cell_table t k).
  - apply (In_sorted_samples t sid Hs). unfold sample_ids.
    apply (nth_error_In _ k). now rewrite nth_error_tl.
  - apply (In_sorted_genes t g Hi). unfold gene_names.
    change g with (fst (g, col)). now apply in_map.
Qed.

Lemma hd_nth_error {A} (d : A) (l : list A) (a : A) :
  nth_error l 0 = Some a -> hd d l = a.
Proof. destruct l; simpl; congruence. Qed.

(** * The recovery matrix *)




Lemma nonnegative_inv (t : LengthTable) (gc : string * list Q) (q : Q) :
  nonnegative t = true -> In gc (gene_columns t) -> In q (snd gc) -> (0 <= q)%Q.
Proof.
  unfold nonnegative. rewrite forallb_forall. intros H Hgc Hq.
  specialize (H gc Hgc). rewrite forallb_forall in H.
  apply Qle_bool_iff. now apply H.
Qed.

Lemma In_tl {A} (a : A) (l : list A) : In a (tl l) -> In a l.
Proof. destruct l; simpl; tauto. Qed.

Lemma hd_nonnegative (l : list Q) :
  (forall q, In q l -> (0 <= q)%Q) -> (0 <= hd 0%Q l)%Q.
Proof.
  destruct l as [|a l]; simpl; intros H; [discriminate | apply H; now left].
Qed.

(** C2, as the code has it.  On a well-formed table all of whose lengths,
    the reference lengths included, are non-negative, every cell of the
    recovery matrix is a number in the closed interval from 0 to 1. *)
Theorem recovery_matrix_unit_interval (parse : string -> option num)
  (t : LengthTable) :
  well_formed t = true ->
  nonnegative t = true ->
  exists m,
    recovery_matrix parse (frame_of_table t) = Ok m
    /\ forall row x, In row (values m) -> In x row ->
         exists q, x = Fin q /\ (0 <= q)%Q /\ (q <= 1)%Q.
Proof.
  intros W N.
  pose proof (well_formed_inv t W) as (_ & Hs & Hi & _).
  exists (table_matrix t). split; [now apply recovery_matrix_well_formed|].
  intros row x Hrow Hx. unfold table_matrix in Hrow. cbn [values] in Hrow.
  apply in_map_iff in Hrow. destruct Hrow as (sid & <- & Hsid).
  apply in_map_iff in Hx. destruct Hx as (g & <- & Hg).
  apply (In_sorted_samples t sid Hs) in Hsid.
  apply (In_sorted_genes t g Hi) in Hg.
  destruct (pivot_cell_found t sid g Hs Hsid Hg) as (col & s & Hgc & Hp & ->).
  apply recovery_unit_interval.
  - apply hd_nonnegative. intros q Hq.
    now apply (nonnegative_inv t (g, col) q N Hgc).
  - apply in_combine_r in Hp.
    apply (nonnegative_inv t (g, col) s N Hgc). cbn [snd]. now apply In_tl.
Qed.

Lemma recovery_matrix_unit_interval_witness :
  exists m,
    recovery_matrix no_parse (frame_of_table (example_table "Species")) = Ok m
    /\ forall row x, In row (values m) -> In x row ->
         exists q, x = Fin q /\ (0 <= q)%Q /\ (q <= 1)%Q.
Proof.
  apply (recovery_matrix_unit_interval no_parse (example_table "Species")).
  - reflexivity.
  - reflexivity.
Defined.

(** C2, counterexample to the claim as stated: every sample cell is
    non-negative, the reference length of [geneA] is [-100], and the cell
    of [Sample1], of length 50, is [-1/2]. *)
Lemma negative_reference_cell_below_zero :
  well_formed negative_reference_table = true
  /\ samples_nonnegative negative_reference_table = true
  /\ exists m,
       recovery_matrix no_parse (frame_of_table negative_reference_table)
       = Ok m
       /\ matrix_get m (VStr "Sample1") "geneA" = Some (Fin (-1 # 2))
       /\ In (Fin (-1 # 2)) (List.concat (values m))
       /\ ((-1 # 2) < 0)%Q.
Proof.
  split; [reflexivity|]. split; [reflexivity|].
  eexists. split; [vm_compute; reflexivity|].
  split; [reflexivity|]. split; [simpl; tauto | reflexivity].
Qed.

(** C4, as the code has it.  Where the reference length of a gene is zero,
    the division gives [inf] or [nan], the comparison [< 1] is false for
    both, and the cell of every sample with a non-negative length becomes
    [1]; the matrix is produced. *)
Theorem zero_reference_cell_is_one (parse : string -> option num)
  (t : LengthTable) (k : nat) (sid g : string) (col : list Q) (r s : Q) :
  well_formed t = true ->
  nth_error (ids t) (S k) = Some sid ->
  In (g, col) (gene_columns t) ->
  nth_error col 0 = Some r ->
  nth_error col (S k) = Some s ->
  (r == 0)%Q ->
  (0 <= s)%Q ->
  exists m,
    recovery_matrix parse (frame_of_table t) = Ok m
    /\ matrix_get m (VStr sid) g = Some (Fin 1).
Proof.
  intros W Hsid Hgc Hr Hs Hzero Hpos.
  exists (table_matrix t). split; [now apply recovery_matrix_well_formed|].
  rewrite (table_cell t k sid g col s W Hsid Hgc Hs).
  rewrite (hd_nth_error _ _ _ Hr). now rewrite recovery_zero_reference.
Qed.

Lemma zero_reference_cell_is_one_witness :
  exists m,
    recovery_matrix no_parse (frame_of_table zero_reference_table) = Ok m
    /\ matrix_get m (VStr "Sample2") "geneA" = Some (Fin 1).
Proof.
  apply (zero_reference_cell_is_one no_parse zero_reference_table 1
           "Sample2" "geneA" [0; 50; 0]%Q 0 0).
  - reflexivity.
  - reflexivity.
  - simpl. left. reflexivity.
  - reflexivity.
  - reflexivity.
  - reflexivity.
  - discriminate.
Defined.

(** C4, counterexample to the claim as stated: with reference length 0 for
    [geneA], the cells of [Sample1] (length 50) and [Sample2] (length 0) at
    [geneA] are both [1], not [nan]. *)
Lemma zero_reference_cell_not_nan :
  exists m,
    recovery_matrix no_parse (frame_of_table zero_reference_table) = Ok m
    /\ matrix_get m (VStr "Sample1") "geneA" = Some (Fin 1)
    /\ matrix_get m (VStr "Sample2") "geneA" = Some (Fin 1)
    /\ matrix_get m (VStr "Sample1") "geneA" <> Some NaN
    /\ matrix_get m (VStr "Sample2") "geneA" <> Some NaN.
Proof.
  eexists. split; [vm_compute; reflexivity|].
  repeat split; try reflexivity; vm_compute; discriminate.
Qed.

Lemma Permutation_sorted_samples (t : LengthTable) :
  shaped t = true -> NoDup (sample_ids t) ->
  Permutation (sorted_samples t) (sample_ids t).
Proof.
  intros Hs Hd. apply NoDup_Permutation;
    [apply NoDup_sorted_samples | assumption |].
  intros sid. now apply In_sorted_samples.
Qed.

Lemma Permutation_sorted_genes (t : LengthTable) :
  shaped t = true -> (2 <= List.length (ids t))%nat ->
  Permutation (sorted_genes t) (gene_names t).
Proof.
  intros Hs Hi. destruct (shaped_inv t Hs) as (_ & _ & _ & Hn).
  apply NoDup_cons_iff in Hn. destruct Hn as [_ Hn].
  apply NoDup_Permutation; [apply NoDup_sorted_genes | assumption |].
  intros g. now apply In_sorted_genes.
Qed.

(** C3, as the code has it.  On a well-formed table with [R] data rows and
    [C] columns, whose first column [pd.read_csv] keeps as text, the matrix
    has [R - 1] rows and [C - 1] columns, every row with [C - 1] cells.
    [pivot] sorts both axes: the row labels are the sample identifiers and
    the column labels the gene names, each in ascending order of the
    strings, not in the order of the input. *)
Theorem recovery_matrix_shape_and_order (parse : string -> option num)
  (t : LengthTable) :
  well_formed t = true ->
  text_identifiers t = true ->
  exists m,
    recovery_matrix parse (frame_of_table t) = Ok m
    /\ List.length (index m) = (List.length (ids t) - 1)%nat
    /\ List.length (columns m)
       = (List.length (id_header t :: gene_names t) - 1)%nat
    /\ List.length (values m) = List.length (index m)
    /\ (forall row, In row (values m) ->
          List.length row = List.length (columns m))
    /\ (exists samples,
          index m = map VStr samples
          /\ Permutation samples (sample_ids t)
          /\ Sorted (fun a b => String.leb a b = true) samples)
    /\ Permutation (columns m) (gene_names t)
    /\ Sorted (fun a b => String.leb a b = true) (columns m).
Proof.
  intros W _. pose proof (well_formed_inv t W) as (_ & Hs & Hi & Hd).
  pose proof (Permutation_sorted_samples t Hs Hd) as PS.
  pose proof (Permutation_sorted_genes t Hs Hi) as PG.
  exists (table_matrix t). split; [now apply recovery_matrix_well_formed|].
  unfold table_matrix. cbn [index columns values].
  repeat split.
  - rewrite length_map, (Permutation_length PS). unfold sample_ids.
    rewrite length_tl. lia.
  - rewrite (Permutation_length PG). cbn [List.length]. lia.
  - now rewrite !length_map.
  - intros row Hrow. apply in_map_iff in Hrow. destruct Hrow as (sid & <- & _).
    now rewrite length_map.
  - exists (sorted_samples t). repeat split; [assumption|].
    apply sort_sorted, String.leb_total.
  - assumption.
  - apply sort_sorted, String.leb_total.
Qed.

Lemma recovery_matrix_shape_and_order_witness :
  exists m,
    recovery_matrix no_parse (frame_of_table unsorted_table) = Ok m
    /\ List.length (index m) = (List.length (ids unsorted_table) - 1)%nat
    /\ List.length (columns m)
       = (List.length (id_header unsorted_table :: gene_names unsorted_table)
          - 1)%nat
    /\ List.length (values m) = List.length (index m)
    /\ (forall row, In row (values m) ->
          List.length row = List.length (columns m))
    /\ (exists samples,
          index m = map VStr samples
          /\ Permutation samples (sample_ids unsorted_table)
          /\ Sorted (fun a b => String.leb a b = true) samples)
    /\ Permutation (columns m) (gene_names unsorted_table)
    /\ Sorted (fun a b => String.leb a b = true) (columns m).
Proof.
  apply (recovery_matrix_shape_and_order no_parse unsorted_table).
  - reflexivity.
  - reflexivity.
Defined.

(** C3, counterexample to the claim as stated: the table lists [Sample2]
    before [Sample1] and [geneB] before [geneA]; the matrix has them in
    ascending order. *)
Lemma recovery_matrix_order_not_input_order :
  exists m,
    recovery_matrix no_parse (frame_of_table unsorted_table) = Ok m
    /\ sample_ids unsorted_table = ["Sample2"; "Sample1"]
    /\ index m = [VStr "Sample1"; VStr "Sample2"]
    /\ index m <> map VStr (sample_ids unsorted_table)
    /\ gene_names unsorted_table = ["geneB"; "geneA"]
    /\ columns m = ["geneA"; "geneB"]
    /\ columns m <> gene_names unsorted_table.
Proof.
  eexists. split; [vm_compute; reflexivity|].
  repeat split; try reflexivity; vm_compute; discriminate.
Qed.

(** C9, as the code has it.  [melt] and [pivot] name the identifier column
    [Species].  A table that is well-formed but for the name of its first
    column gives the matrix when that name is [Species], and raises
    [KeyError] at [melt] when no column has that name. *)
Theorem identifier_column_must_be_Species (parse : string -> option num)
  (t : LengthTable) :
  shaped t = true ->
  samples_distinct t = true ->
  (id_header t = "Species" ->
   recovery_matrix parse (frame_of_table t) = Ok (table_matrix t))
  /\ (id_header t <> "Species" -> ~ In "Species" (gene_names t) ->
      recovery_matrix parse (frame_of_table t) = Raise KeyError).
Proof.
  intros Hs Hd. split.
  - intros Hh. apply recovery_matrix_well_formed.
    unfold well_formed, readable. rewrite Hs, Hd, Hh. reflexivity.
  - intros Hh Hg. now apply recovery_matrix_no_Species.
Qed.

Lemma identifier_column_must_be_Species_witness :
  (id_header (example_table "Sample") = "Species" ->
   recovery_matrix no_parse (frame_of_table (example_table "Sample"))
   = Ok (table_matrix (example_table "Sample")))
  /\ (id_header (example_table "Sample") <> "Species" ->
      ~ In "Species" (gene_names (example_table "Sample")) ->
      recovery_matrix no_parse (frame_of_table (example_table "Sample"))
      = Raise KeyError).
Proof.
  apply (identifier_column_must_be_Species no_parse (example_table "Sample")).
  - reflexivity.
  - reflexivity.
Defined.

(** C9, counterexample to the claim as stated: the same rows under the
    header [Species] and under the header [Sample]. *)
Lemma identifier_column_name_matters :
  recovery_matrix no_parse (frame_of_table (example_table "Species"))
  = Ok (mkMatrix [VStr "Sample1"; VStr "Sample2"] ["geneA"; "geneB"]
          [[Fin (1 # 2); Fin 1]; [Fin 1; Fin (1 # 4)]])
  /\ recovery_matrix no_parse (frame_of_table (example_table "Sample"))
     = Raise KeyError.
Proof. split; vm_compute; reflexivity. Qed.

(** * [main] as a whole *)

Lemma main_outcome (parse : string -> option num) (fs : FileSystem)
  (args : Args) :
  run (main parse fs args)
  = if negb (String.eqb (seq_lengths_file args) "")
       && negb (path_exists fs (path_to_seq_lengths_file args))
    then (Raise (SystemExit 1), [])
    else
      match read_csv fs (path_to_seq_lengths_file args) with
      | Raise e => (Raise e, [])
      | Ok df =>
          match recovery_matrix parse df with
          | Raise e => (Raise e, [])
          | Ok m => (Ok tt, render_calls m args)
          end
      end.
Proof.
  unfold main, run, bind, lift, raise, ret.
  destruct (negb (String.eqb (seq_lengths_file args) "")
            && negb (path_exists fs (path_to_seq_lengths_file args)));
    [reflexivity|].
  destruct (read_csv fs (path_to_seq_lengths_file args)) as [df|e];
    [|reflexivity].
  destruct (recovery_matrix parse df) as [m|e]; reflexivity.
Qed.

Lemma main_on_file (parse : string -> option num) (fs : FileSystem)
  (args : Args) (df : DataFrame) :
  fs (path_to_seq_lengths_file args) = Some (Ok df) ->
  run (main parse fs args)
  = match recovery_matrix parse df with
    | Raise e => (Raise e, [])
    | Ok m => (Ok tt, render_calls m args)
    end.
Proof.
  intros H. rewrite main_outcome. unfold path_exists, read_csv. rewrite H.
  now rewrite andb_false_r.
Qed.

Lemma main_success (parse : string -> option num) (fs : FileSystem)
  (args : Args) (tr : list call) :
  run (main parse fs args) = (Ok tt, tr) ->
  exists m, tr = render_calls m args.
Proof.
  rewrite main_outcome.
  destruct (_ && _); [discriminate|].
  destruct (read_csv _ _) as [df|e]; [|discriminate].
  destruct (recovery_matrix parse df) as [m|e]; [|discriminate].
  intros [= <-]. now exists m.
Qed.

Lemma pivot_duplicate_samples (t : LengthTable) :
  shaped t = true ->
  has_duplicates String.eqb (sample_ids t) = true ->
  pivot (long_of_table t) = Raise ValueError.
Proof.
  intros Hs Hd. rewrite (pivot_table t Hs).
  assert (E : has_duplicates skey_eqb (table_keys t) = true).
  { apply (has_duplicates_true _ skey_eqb_spec). intros Hk.
    apply (has_duplicates_true _ string_eqb_spec) in Hd. apply Hd.
    now apply table_keys_NoDup_inv. }
  now rewrite E.
Qed.

(** C10.  When two sample rows of an otherwise readable table carry the
    same identifier, lines 173-185 go through, [pivot] raises [ValueError]
    (duplicate entries in the index), so [main] raises it, and
    [plt.savefig] is never called: no image file is written. *)
Theorem duplicate_sample_identifier_fails_at_pivot
  (parse : string -> option num) (fs : FileSystem) (args : Args)
  (t : LengthTable) :
  readable t = true ->
  has_duplicates String.eqb (sample_ids t) = true ->
  fs (path_to_seq_lengths_file args) = Some (Ok (frame_of_table t)) ->
  recovery_matrix parse (frame_of_table t) = pivot (long_of_table t)
  /\ pivot (long_of_table t) = Raise ValueError
  /\ fst (run (main parse fs args)) = Raise ValueError
  /\ image_written (snd (run (main parse fs args))) = false.
Proof.
  intros R Hd Hf. destruct (readable_inv t R) as (_ & Hs).
  pose proof (recovery_matrix_table parse t R) as E1.
  pose proof (pivot_duplicate_samples t Hs Hd) as E2.
  rewrite (main_on_file parse fs args _ Hf), E1, E2. now repeat split.
Qed.

Lemma duplicate_sample_identifier_fails_at_pivot_witness :
  recovery_matrix no_parse (frame_of_table duplicate_table)
  = pivot (long_of_table duplicate_table)
  /\ pivot (long_of_table duplicate_table) = Raise ValueError
  /\ fst (run (main no_parse (one_file "./seq_lengths.tsv" duplicate_table)
                 default_args)) = Raise ValueError
  /\ image_written
       (snd (run (main no_parse (one_file "./seq_lengths.tsv" duplicate_table)
                    default_args))) = false.
Proof.
  apply (duplicate_sample_identifier_fails_at_pivot no_parse
           (one_file "./seq_lengths.tsv" duplicate_table) default_args
           duplicate_table).
  - reflexivity.
  - reflexivity.
  - reflexivity.
Defined.

(** * The heatmap call *)

(** C5, as the code has it.  Every run of [main] that returns makes one
    call of [sns.heatmap], with [vmin=0], the colormap [bone_r] and no
    [vmax]: the lower end of the colour scale is fixed at 0 and the upper
    end is the largest cell of the matrix. *)
Theorem heatmap_scale_fixed_below_only (parse : string -> option num)
  (fs : FileSystem) (args : Args) (tr : list call) :
  run (main parse fs args) = (Ok tt, tr) ->
  exists m,
    heatmap_calls tr = [(m, Some 0%Q, None, "bone_r")]
    /\ color_limits m (Some 0%Q) None = (Some 0%Q, Qmaximum (finite_cells m)).
Proof.
  intros H. destruct (main_success parse fs args tr H) as (m & ->).
  exists m. split; reflexivity.
Qed.

Lemma heatmap_scale_fixed_below_only_witness :
  exists m,
    heatmap_calls
      (snd (run (main no_parse
                   (one_file "./seq_lengths.tsv" (example_table "Species"))
                   default_args)))
    = [(m, Some 0%Q, None, "bone_r")]
    /\ color_limits m (Some 0%Q) None = (Some 0%Q, Qmaximum (finite_cells m)).
Proof.
  apply (heatmap_scale_fixed_below_only no_parse
           (one_file "./seq_lengths.tsv" (example_table "Species"))
           default_args).
  vm_compute. reflexivity.
Defined.

(** C5, counterexample to the claim as stated: no cell of the matrix of
    [half_table] exceeds 1/2; the heatmap is called without [vmax] and its
    colour scale runs from 0 to 1/2, not to 1. *)
Lemma heatmap_scale_follows_matrix_maximum :
  exists m,
    heatmap_calls
      (snd (run (main no_parse (one_file "./seq_lengths.tsv" half_table)
                   default_args)))
    = [(m, Some 0%Q, None, "bone_r")]
    /\ color_limits m (Some 0%Q) None = (Some 0%Q, Some (1 # 2)%Q)
    /\ ~ ((1 # 2) == 1)%Q.
Proof.
  eexists. split; [vm_compute; reflexivity|].
  split; [vm_compute; reflexivity | discriminate].
Qed.

(** * [get_figure_dimensions] *)

Lemma div3_correct (n : nat) : (div3 n == Z.of_nat n # 3)%Q.
Proof. apply Qred_correct. Qed.

(** C6, as the code has it.  [get_figure_dimensions] checks nothing and
    raises nothing.  An override of [0] is false in [x if x else d], so it
    is treated as not given; a negative override is true and is returned as
    it is. *)
Theorem nonpositive_override_not_rejected (df : Matrix) (v : Z)
  (fl fh st gt : option Z) :
  v <= 0 ->
  (v = 0 ->
   get_figure_dimensions df (Some v) fh st gt
   = get_figure_dimensions df None fh st gt
   /\ get_figure_dimensions df fl (Some v) st gt
      = get_figure_dimensions df fl None st gt
   /\ get_figure_dimensions df fl fh (Some v) gt
      = get_figure_dimensions df fl fh None gt
   /\ get_figure_dimensions df fl fh st (Some v)
      = get_figure_dimensions df fl fh st None)
  /\ (v < 0 ->
      fig_length_of (get_figure_dimensions df (Some v) fh st gt) = inject_Z v
      /\ figure_height_of (get_figure_dimensions df fl (Some v) st gt)
         = inject_Z v
      /\ sample_text_size_of (get_figure_dimensions df fl fh (Some v) gt) = v
      /\ gene_id_text_size_of (get_figure_dimensions df fl fh st (Some v)) = v).
Proof.
  intros _. split.
  - intros ->. repeat split.
  - intros Hneg. assert (E : (v =? 0) = false) by (apply Z.eqb_neq; lia).
    unfold get_figure_dimensions, fig_length_of, figure_height_of,
      sample_text_size_of, gene_id_text_size_of, if_else.
    cbn [fst snd]. rewrite E. repeat split.
Qed.

Lemma nonpositive_override_not_rejected_witness :
  (-4 = 0 ->
   get_figure_dimensions example_matrix (Some (-4)) None None None
   = get_figure_dimensions example_matrix None None None None
   /\ get_figure_dimensions example_matrix None (Some (-4)) None None
      = get_figure_dimensions example_matrix None None None None
   /\ get_figure_dimensions example_matrix None None (Some (-4)) None
      = get_figure_dimensions example_matrix None None None None
   /\ get_figure_dimensions example_matrix None None None (Some (-4))
      = get_figure_dimensions example_matrix None None None None)
  /\ (-4 < 0 ->
      fig_length_of
        (get_figure_dimensions example_matrix (Some (-4)) None None None)
      = inject_Z (-4)
      /\ figure_height_of
           (get_figure_dimensions example_matrix None (Some (-4)) None None)
         = inject_Z (-4)
      /\ sample_text_size_of
           (get_figure_dimensions example_matrix None None (Some (-4)) None)
         = -4
      /\ gene_id_text_size_of
           (get_figure_dimensions example_matrix None None None (Some (-4)))
         = -4).
Proof.
  apply (nonpositive_override_not_rejected example_matrix (-4)
           None None None None).
  lia.
Defined.

(** C6, counterexample to the claim as stated: with all four overrides
    given as [0], [main] returns, the defaults are used and the image is
    written; with negative overrides [get_figure_dimensions] returns them. *)
Lemma zero_override_run_succeeds :
  fst (run (main no_parse
              (one_file "./seq_lengths.tsv" (example_table "Species"))
              zero_override_args)) = Ok tt
  /\ image_written
       (snd (run (main no_parse
                    (one_file "./seq_lengths.tsv" (example_table "Species"))
                    zero_override_args))) = true
  /\ get_figure_dimensions example_matrix (Some 0) (Some 0) (Some 0) (Some 0)
     = ((2 # 3)%Q, (2 # 3)%Q, 10, 10)
  /\ get_figure_dimensions example_matrix
       (Some (-4)) (Some (-2)) (Some (-1)) (Some (-3))
     = ((-4)%Q, (-2)%Q, -1, -3).
Proof. repeat split; vm_compute; reflexivity. Qed.

(** C7, as the code has it.  The result is a function of the four
    arguments and of the numbers of rows and columns of the matrix alone,
    and an override that is given and is not [0] is returned as it is,
    whatever the matrix. *)
Theorem nonzero_override_returned_unchanged (df : Matrix) (v : Z)
  (fl fh st gt : option Z) :
  v <> 0 ->
  fig_length_of (get_figure_dimensions df (Some v) fh st gt) = inject_Z v
  /\ figure_height_of (get_figure_dimensions df fl (Some v) st gt) = inject_Z v
  /\ sample_text_size_of (get_figure_dimensions df fl fh (Some v) gt) = v
  /\ gene_id_text_size_of (get_figure_dimensions df fl fh st (Some v)) = v
  /\ (forall df' : Matrix,
        List.length (index df') = List.length (index df) ->
        List.length (columns df') = List.length (columns df) ->
        get_figure_dimensions df' fl fh st gt
        = get_figure_dimensions df fl fh st gt).
Proof.
  intros Hv. apply Z.eqb_neq in Hv.
  unfold get_figure_dimensions, fig_length_of, figure_height_of,
    sample_text_size_of, gene_id_text_size_of, if_else.
  cbn [fst snd]. rewrite Hv. repeat split.
  intros df' -> ->. reflexivity.
Qed.

Lemma nonzero_override_returned_unchanged_witness :
  fig_length_of (get_figure_dimensions example_matrix (Some 14) None None None)
  = inject_Z 14
  /\ figure_height_of
       (get_figure_dimensions example_matrix None (Some 14) None None)
     = inject_Z 14
  /\ sample_text_size_of
       (get_figure_dimensions example_matrix None None (Some 14) None) = 14
  /\ gene_id_text_size_of
       (get_figure_dimensions example_matrix None None None (Some 14)) = 14
  /\ (forall df' : Matrix,
        List.length (index df') = List.length (index example_matrix) ->
        List.length (columns df') = List.length (columns example_matrix) ->
        get_figure_dimensions df' None None None None
        = get_figure_dimensions example_matrix None None None None).
Proof.
  apply (nonzero_override_returned_unchanged example_matrix 14
           None None None None).
  discriminate.
Defined.

(** C7, counterexample to the claim as stated: an override given as [0] is
    not returned; the default takes its place. *)
Lemma zero_override_not_returned :
  sample_text_size_of
    (get_figure_dimensions example_matrix None None (Some 0) None) = 10
  /\ gene_id_text_size_of
       (get_figure_dimensions example_matrix None None None (Some 0)) = 10
  /\ figure_height_of
       (get_figure_dimensions example_matrix None (Some 0) None None)
     = (2 # 3)%Q
  /\ fig_length_of
       (get_figure_dimensions example_matrix (Some 0) None None None)
     = (2 # 3)%Q
  /\ 10 <> 0
  /\ ~ ((2 # 3) == inject_Z 0)%Q.
Proof. repeat split; try (vm_compute; reflexivity); discriminate. Qed.

(** C8.  Without overrides both text sizes are 10, the height is the
    number of rows of the matrix divided by 3 and the length the number of
    its columns divided by 3; 30 rows give the height 10 and 60 columns
    the length 20. *)
Theorem default_figure_dimensions (df : Matrix) :
  sample_text_size_of (get_figure_dimensions df None None None None) = 10
  /\ gene_id_text_size_of (get_figure_dimensions df None None None None) = 10
  /\ (figure_height_of (get_figure_dimensions df None None None None)
      == Z.of_nat (List.length (index df)) # 3)%Q
  /\ (fig_length_of (get_figure_dimensions df None None None None)
      == Z.of_nat (List.length (columns df)) # 3)%Q
  /\ (List.length (index df) = 30%nat ->
      figure_height_of (get_figure_dimensions df None None None None) = 10%Q)
  /\ (List.length (columns df) = 60%nat ->
      fig_length_of (get_figure_dimensions df None None None None) = 20%Q).
Proof.
  unfold get_figure_dimensions, fig_length_of, figure_height_of,
    sample_text_size_of, gene_id_text_size_of, if_else.
  cbn [fst snd]. repeat split; try apply div3_correct.
  - intros ->. reflexivity.
  - intros ->. reflexivity.
Qed.

(** * Further properties of [main] *)

(** ** Failures *)

(** X1.  When a file name is given and no file exists at the path built
    from the output folder and that name, [main] exits with status 1
    before reading anything, and no seaborn or matplotlib call is made. *)
Theorem missing_file_exits_with_1 (parse : string -> option num)
  (fs : FileSystem) (args : Args) :
  seq_lengths_file args <> "" ->
  fs (path_to_seq_lengths_file args) = None ->
  run (main parse fs args) = (Raise (SystemExit 1), []).
Proof.
  intros Hname Hfile. rewrite main_outcome. unfold path_exists.
  rewrite Hfile. apply String.eqb_neq in Hname. now rewrite Hname.
Qed.

Lemma missing_file_exits_with_1_witness :
  run (main no_parse (fun _ => None) default_args)
  = (Raise (SystemExit 1), []).
Proof.
  apply (missing_file_exits_with_1 no_parse (fun _ => None) default_args).
  - discriminate.
  - reflexivity.
Defined.

(** X2.  [pd.read_csv] and lines 173-188 come before the first seaborn or
    matplotlib call: when the file exists and [pd.read_csv] raises, or it
    returns a frame on which lines 173-188 raise, [main] raises that same
    exception and no seaborn or matplotlib call has been made. *)
Theorem failure_in_loading_draws_nothing (parse : string -> option num)
  (fs : FileSystem) (args : Args) (e : exn) :
  path_exists fs (path_to_seq_lengths_file args) = true ->
  read_csv fs (path_to_seq_lengths_file args) = Raise e
  \/ (exists df, read_csv fs (path_to_seq_lengths_file args) = Ok df
                 /\ recovery_matrix parse df = Raise e) ->
  run (main parse fs args) = (Raise e, []).
Proof.
  intros Hex H. rewrite main_outcome, Hex, andb_false_r.
  destruct H as [-> | (df & -> & ->)]; reflexivity.
Qed.

Lemma failure_in_loading_draws_nothing_witness :
  run (main no_parse (one_file "./seq_lengths.tsv" (example_table "Sample"))
         default_args) = (Raise KeyError, []).
Proof.
  apply (failure_in_loading_draws_nothing no_parse
           (one_file "./seq_lengths.tsv" (example_table "Sample"))
           default_args KeyError).
  - reflexivity.
  - right. exists (frame_of_table (example_table "Sample")).
    split; reflexivity.
Defined.

(** X3.  A frame with fewer than two columns, or with no row, makes lines
    173-188 raise [IndexError]: [df.columns[1]] and [df.iloc[0]] are out of
    bounds. *)
Theorem too_small_frame_raises_IndexError (parse : string -> option num)
  (df : DataFrame) :
  (List.length df < 2)%nat \/ nrows df = 0%nat ->
  recovery_matrix parse df = Raise IndexError.
Proof.
  intros H. unfold recovery_matrix, div_by_first_row.
  destruct df as [|c0 [|c1 cs]]; try reflexivity.
  destruct H as [H | H]; [simpl in H; lia|].
  now rewrite H.
Qed.

Lemma too_small_frame_raises_IndexError_witness :
  recovery_matrix no_parse [("Species", []); ("geneA", [])] = Raise IndexError.
Proof.
  apply (too_small_frame_raises_IndexError no_parse
           [("Species", []); ("geneA", [])]).
  right. reflexivity.
Defined.








(** ** The cells, whatever the signs of the lengths *)

Lemma clamp_cases (x : num) :
  Num.ltb x (of_Z 1) = true /\ clamp x = x \/ clamp x = Fin 1.
Proof.
  unfold clamp. destruct (Num.ltb x (of_Z 1)); [left; now split | now right].
Qed.

Lemma ltb_one_not_special (x : num) :
  Num.ltb x (of_Z 1) = true -> x <> NaN /\ x <> PInf.
Proof. destruct x; simpl; intros H; split; congruence. Qed.

(** X5.  On a well-formed table, with lengths of any sign and references
    that may be zero, every cell of the matrix is below 1 or is exactly 1:
    the cap of line 176 leaves neither [nan] nor [inf] in the matrix. *)
Theorem matrix_cells_capped (parse : string -> option num) (t : LengthTable) :
  well_formed t = true ->
  exists m,
    recovery_matrix parse (frame_of_table t) = Ok m
    /\ forall row x, In row (values m) -> In x row ->
         (Num.ltb x (of_Z 1) = true \/ x = Fin 1)
         /\ x <> NaN /\ x <> PInf.
Proof.
  intros W. pose proof (well_formed_inv t W) as (_ & Hs & Hi & _).
  exists (table_matrix t). split; [now apply recovery_matrix_well_formed|].
  intros row x Hrow Hx. unfold table_matrix in Hrow. cbn [values] in Hrow.
  apply in_map_iff in Hrow. destruct Hrow as (sid & <- & Hsid).
  apply in_map_iff in Hx. destruct Hx as (g & <- & Hg).
  apply (In_sorted_samples t sid Hs) in Hsid.
  apply (In_sorted_genes t g Hi) in Hg.
  destruct (pivot_cell_found t sid g Hs Hsid Hg) as (col & s & _ & _ & ->).
  unfold recovery.
  destruct (clamp_cases (Num.div (Fin s) (Fin (hd 0%Q col))))
    as [[L ->] | ->].
  - split; [now left | now apply ltb_one_not_special].
  - split; [now right | split; discriminate].
Qed.

Lemma matrix_cells_capped_witness :
  exists m,
    recovery_matrix no_parse (frame_of_table zero_reference_table) = Ok m
    /\ forall row x, In row (values m) -> In x row ->
         (Num.ltb x (of_Z 1) = true \/ x = Fin 1)
         /\ x <> NaN /\ x <> PInf.
Proof.
  apply (matrix_cells_capped no_parse zero_reference_table).
  reflexivity.
Defined.

(** X6.  Reshaping loses nothing.  On a well-formed table, for every
    sample row and gene column, with reference value [r] and sample value
    [s] of any sign, the cell found in the matrix under the sample's
    identifier and the gene's name is the value lines 173 and 176 compute
    from [s] and [r]: [s / r] if that is below 1, else 1. *)
Theorem melt_pivot_keeps_cells (parse : string -> option num)
  (t : LengthTable) (k : nat) (sid g : string) (col : list Q) (r s : Q) :
  well_formed t = true ->
  nth_error (ids t) (S k) = Some sid ->
  In (g, col) (gene_columns t) ->
  nth_error col 0 = Some r ->
  nth_error col (S k) = Some s ->
  exists m,
    recovery_matrix parse (frame_of_table t) = Ok m
    /\ matrix_get m (VStr sid) g
       = Some (if Num.ltb (Num.div (Fin s) (Fin r)) (of_Z 1)
               then Num.div (Fin s) (Fin r) else of_Z 1).
Proof.
  intros W Hsid Hgc Hr Hs.
  exists (table_matrix t). split; [now apply recovery_matrix_well_formed|].
  rewrite (table_cell t k sid g col s W Hsid Hgc Hs).
  now rewrite (hd_nth_error _ _ _ Hr).
Qed.

Lemma melt_pivot_keeps_cells_witness :
  exists m,
    recovery_matrix no_parse (frame_of_table unsorted_table) = Ok m
    /\ matrix_get m (VStr "Sample2") "geneB"
       = Some (if Num.ltb (Num.div (Fin 50) (Fin 200)) (of_Z 1)
               then Num.div (Fin 50) (Fin 200) else of_Z 1).
Proof.
  apply (melt_pivot_keeps_cells no_parse unsorted_table 0
           "Sample2" "geneB" [200; 50; 200]%Q 200 50).
  - reflexivity.
  - reflexivity.
  - simpl. left. reflexivity.
  - reflexivity.
  - reflexivity.
Defined.

Lemma recovery_monotone (r s s' : Q) :
  (0 < r)%Q -> (s <= s')%Q ->
  exists q q', recovery r s = Fin q /\ recovery r s' = Fin q' /\ (q <= q')%Q.
Proof.
  intros Hr Hle.
  destruct (Qlt_le_dec s' r) as [L' | G'].
  - assert (L : (s < r)%Q) by (eapply Qle_lt_trans; eassumption).
    exists (Qred (s / r)), (Qred (s' / r)).
    rewrite !recovery_below by assumption. repeat split.
    rewrite !Qred_correct. unfold Qdiv.
    apply Qmult_le_compat_r; [assumption|].
    apply Qlt_le_weak, Qinv_lt_0_compat, Hr.
  - destruct (Qlt_le_dec s r) as [L | G].
    + exists (Qred (s / r)), 1%Q.
      rewrite recovery_below, recovery_capped by assumption. repeat split.
      rewrite Qred_correct. apply Qle_shift_div_r; [assumption|].
      rewrite Qmult_1_l. now apply Qlt_le_weak.
    + exists 1%Q, 1%Q. rewrite !recovery_capped by assumption.
      repeat split. apply Qle_refl.
Qed.

(** X7.  Within one gene with a positive reference length, a sample with
    a longer sequence never has a smaller cell than a sample with a shorter
    one. *)
Theorem longer_sequence_no_smaller_cell (parse : string -> option num)
  (t : LengthTable) (k k' : nat) (sid sid' g : string) (col : list Q)
  (r s s' : Q) :
  well_formed t = true ->
  In (g, col) (gene_columns t) ->
  nth_error col 0 = Some r ->
  nth_error (ids t) (S k) = Some sid ->
  nth_error col (S k) = Some s ->
  nth_error (ids t) (S k') = Some sid' ->
  nth_error col (S k') = Some s' ->
  (0 < r)%Q ->
  (s <= s')%Q ->
  exists m q q',
    recovery_matrix parse (frame_of_table t) = Ok m
    /\ matrix_get m (VStr sid) g = Some (Fin q)
    /\ matrix_get m (VStr sid') g = Some (Fin q')
    /\ (q <= q')%Q.
Proof.
  intros W Hgc Hr Hsid Hs Hsid' Hs' Hpos Hle.
  destruct (recovery_monotone r s s' Hpos Hle) as (q & q' & E & E' & Hq).
  exists (table_matrix t), q, q'.
  split; [now apply recovery_matrix_well_formed|].
  rewrite (table_cell t k sid g col s W Hsid Hgc Hs).
  rewrite (table_cell t k' sid' g col s' W Hsid' Hgc Hs').
  rewrite (hd_nth_error _ _ _ Hr), E, E'. now repeat split.
Qed.

Lemma longer_sequence_no_smaller_cell_witness :
  exists m q q',
    recovery_matrix no_parse (frame_of_table half_table) = Ok m
    /\ matrix_get m (VStr "Sample2") "geneA" = Some (Fin q)
    /\ matrix_get m (VStr "Sample1") "geneA" = Some (Fin q')
    /\ (q <= q')%Q.
Proof.
  apply (longer_sequence_no_smaller_cell no_parse half_table 1 0
           "Sample2" "Sample1" "geneA" [100; 50; 25]%Q 100 25 50).
  - reflexivity.
  - simpl. left. reflexivity.
  - reflexivity.
  - reflexivity.
  - reflexivity.
  - reflexivity.
  - reflexivity.
  - reflexivity.
  - discriminate.
Defined.

(** ** What the matrix does not depend on *)

Lemma shaped_intro (t : LengthTable) :
  (1 <= List.length (ids t))%nat ->
  (1 <= List.length (gene_columns t))%nat ->
  (forall gc, In gc (gene_columns t) ->
     List.length (snd gc) = List.length (ids t)) ->
  NoDup (id_header t :: gene_names t) ->
  shaped t = true.
Proof.
  intros H1 H2 H3 H4. unfold shaped, rectangular.
  rewrite !andb_true_iff, negb_true_iff, !Nat.leb_le, forallb_forall,
    (has_duplicates_false _ string_eqb_spec).
  repeat split; try assumption.
  intros gc Hgc. apply Nat.eqb_eq. now apply H3.
Qed.

Lemma readable_intro (t : LengthTable) :
  id_header t = "Species" -> shaped t = true -> readable t = true.
Proof.
  intros Hh Hs. unfold readable. rewrite Hs, andb_true_r.
  now apply String.eqb_eq.
Qed.

Lemma readable_rename_reference (name : string) (t : LengthTable) :
  readable t = true -> readable (rename_reference name t) = true.
Proof.
  intros R. destruct (readable_inv t R) as (Hh & Hs).
  destruct (shaped_inv t Hs) as (H1 & H2 & H3 & H4).
  assert (L : List.length (name :: tl (ids t)) = List.length (ids t)).
  { cbn [List.length]. rewrite length_tl. lia. }
  apply readable_intro; [assumption|]. apply shaped_intro;
    unfold rename_reference; cbn [ids gene_columns id_header].
  - rewrite L. assumption.
  - assumption.
  - intros gc Hgc. rewrite L. now apply H3.
  - exact H4.
Qed.

(** X9.  The reference row is taken by position: the identifier written
    in the first data row plays no part.  Replacing it by another string
    leaves the result of lines 173-188 as it is, as long as [pd.read_csv]
    keeps the first column as text before and after. *)
Theorem reference_row_identifier_irrelevant (parse : string -> option num)
  (name : string) (t : LengthTable) :
  readable t = true ->
  text_identifiers t = true ->
  text_identifiers (rename_reference name t) = true ->
  recovery_matrix parse (frame_of_table (rename_reference name t))
  = recovery_matrix parse (frame_of_table t).
Proof.
  intros R _ _.
  rewrite (recovery_matrix_table parse _ (readable_rename_reference name t R)).
  rewrite (recovery_matrix_table parse t R). reflexivity.
Qed.

Lemma reference_row_identifier_irrelevant_witness :
  recovery_matrix no_parse
    (frame_of_table (rename_reference "Sample1" (example_table "Species")))
  = recovery_matrix no_parse (frame_of_table (example_table "Species")).
Proof.
  apply (reference_row_identifier_irrelevant no_parse "Sample1"
           (example_table "Species")).
  - reflexivity.
  - reflexivity.
  - reflexivity.
Defined.

(** ** Runs that succeed *)

(** X10.  When the file holds a well-formed table whose first column
    [pd.read_csv] keeps as text, every run of [main] that returns has drawn
    the heatmap once, on the recovery matrix of the table, and has called
    [plt.savefig] once, as its last call, on the path made of the output
    folder, the file name and the file type, with the given DPI and a tight
    bounding box. *)
Theorem returning_run_saved_one_image (parse : string -> option num)
  (fs : FileSystem) (args : Args) (t : LengthTable) (tr : list call) :
  well_formed t = true ->
  text_identifiers t = true ->
  fs (path_to_seq_lengths_file args) = Some (Ok (frame_of_table t)) ->
  run (main parse fs args) = (Ok tt, tr) ->
  exists m,
    recovery_matrix parse (frame_of_table t) = Ok m
    /\ heatmap_calls tr = [(m, Some 0%Q, None, "bone_r")]
    /\ filter is_savefig tr
       = [plt_savefig (path_to_output_heatmap args) (heatmap_dpi args) "tight"]
    /\ last tr (sns_set_style "")
       = plt_savefig (path_to_output_heatmap args) (heatmap_dpi args) "tight".
Proof.
  intros W _ Hf Hrun. exists (table_matrix t).
  pose proof (recovery_matrix_well_formed parse t W) as E.
  split; [assumption|].
  rewrite (main_on_file parse fs args _ Hf), E in Hrun.
  injection Hrun as <-. repeat split.
Qed.

Lemma returning_run_saved_one_image_witness :
  exists m,
    recovery_matrix no_parse (frame_of_table (example_table "Species")) = Ok m
    /\ heatmap_calls
         (snd (run (main no_parse
                      (one_file "./seq_lengths.tsv" (example_table "Species"))
                      default_args)))
       = [(m, Some 0%Q, None, "bone_r")]
    /\ filter is_savefig
         (snd (run (main no_parse
                      (one_file "./seq_lengths.tsv" (example_table "Species"))
                      default_args)))
       = [plt_savefig (path_to_output_heatmap default_args)
            (heatmap_dpi default_args) "tight"]
    /\ last
         (snd (run (main no_parse
                      (one_file "./seq_lengths.tsv" (example_table "Species"))
                      default_args)))
         (sns_set_style "")
       = plt_savefig (path_to_output_heatmap default_args)
           (heatmap_dpi default_args) "tight".
Proof.
  apply (returning_run_saved_one_image no_parse
           (one_file "./seq_lengths.tsv" (example_table "Species"))
           default_args (example_table "Species")).
  - reflexivity.
  - reflexivity.
  - reflexivity.
  - vm_compute. reflexivity.
Defined.

Lemma table_matrix_dimensions (t : LengthTable) :
  well_formed t = true ->
  List.length (index (table_matrix t)) = List.length (sample_ids t)
  /\ List.length (columns (table_matrix t)) = List.length (gene_columns t).
Proof.
  intros W. pose proof (well_formed_inv t W) as (_ & Hs & Hi & Hd).
  unfold table_matrix. cbn [index columns]. split.
  - rewrite length_map.
    apply Permutation_length, Permutation_sorted_samples; assumption.
  - rewrite (Permutation_length (Permutation_sorted_genes t Hs Hi)).
    unfold gene_names. apply length_map.
Qed.

(** X11.  With no override given, every run of [main] that returns on a
    well-formed table, whose first column [pd.read_csv] keeps as text, has
    set the figure size from the table itself, to a third of the number of
    gene columns by a third of the number of sample rows, as its first
    call, and both tick label sizes to 10. *)
Theorem default_run_sized_figure_from_table (parse : string -> option num)
  (fs : FileSystem) (args : Args) (t : LengthTable) (tr : list call) :
  well_formed t = true ->
  text_identifiers t = true ->
  fs (path_to_seq_lengths_file args) = Some (Ok (frame_of_table t)) ->
  figure_length args = None ->
  figure_height args = None ->
  sample_text_size args = None ->
  gene_text_size args = None ->
  run (main parse fs args) = (Ok tt, tr) ->
  hd_error tr
  = Some (sns_set_figsize (div3 (List.length (gene_columns t)))
                          (div3 (List.length (sample_ids t))))
  /\ In (tick_params "x" 10) tr
  /\ In (tick_params "y" 10) tr.
Proof.
  intros W _ Hf Hl Hh Hst Hgt Hrun.
  rewrite (main_on_file parse fs args _ Hf),
    (recovery_matrix_well_formed parse t W) in Hrun.
  injection Hrun as <-.
  destruct (table_matrix_dimensions t W) as [Ei Ec].
  unfold render_calls, get_figure_dimensions, fig_length_of, figure_height_of,
    sample_text_size_of, gene_id_text_size_of.
  rewrite Hl, Hh, Hst, Hgt, Ei, Ec. cbn [if_else fst snd hd_error].
  repeat split; simpl; tauto.
Qed.

Lemma default_run_sized_figure_from_table_witness :
  hd_error
    (snd (run (main no_parse
                 (one_file "./seq_lengths.tsv" (example_table "Species"))
                 default_args)))
  = Some (sns_set_figsize
            (div3 (List.length (gene_columns (example_table "Species"))))
            (div3 (List.length (sample_ids (example_table "Species")))))
  /\ In (tick_params "x" 10)
        (snd (run (main no_parse
                     (one_file "./seq_lengths.tsv" (example_table "Species"))
                     default_args)))
  /\ In (tick_params "y" 10)
        (snd (run (main no_parse
                     (one_file "./seq_lengths.tsv" (example_table "Species"))
                     default_args))).
Proof.
  apply (default_run_sized_figure_from_table no_parse
           (one_file "./seq_lengths.tsv" (example_table "Species"))
           default_args (example_table "Species")).
  - reflexivity.
  - reflexivity.
  - reflexivity.
  - reflexivity.
  - reflexivity.
  - reflexivity.
  - reflexivity.
  - vm_compute. reflexivity.
Defined.

Lemma div3_positive (n : nat) : (1 <= n)%nat -> (0 < div3 n)%Q.
Proof.
  intros H. rewrite div3_correct. unfold Qlt. simpl. lia.
Qed.

Lemma if_else_Z_positive (x : option Z) (d : Z) :
  unset_or_positive x = true -> 0 < d -> 0 < if_else id x d.
Proof.
  destruct x as [v|]; simpl; [|tauto].
  intros Hv Hd. apply Z.ltb_lt in Hv.
  destruct (v =? 0); [assumption | exact Hv].
Qed.

Lemma if_else_Q_positive (x : option Z) (d : Q) :
  unset_or_positive x = true -> (0 < d)%Q -> (0 < if_else inject_Z x d)%Q.
Proof.
  destruct x as [v|]; simpl; [|tauto].
  intros Hv Hd. apply Z.ltb_lt in Hv.
  destruct (v =? 0); [assumption|].
  unfold Qlt. simpl. lia.
Qed.

(** X12.  For a matrix with at least one row and one column, when every
    override is either not given or positive, the figure length, the
    figure height and both text sizes returned are positive. *)
Theorem figure_dimensions_positive (df : Matrix)
  (fl fh st gt : option Z) :
  (1 <= List.length (index df))%nat ->
  (1 <= List.length (columns df))%nat ->
  unset_or_positive fl = true ->
  unset_or_positive fh = true ->
  unset_or_positive st = true ->
  unset_or_positive gt = true ->
  (0 < fig_length_of (get_figure_dimensions df fl fh st gt))%Q
  /\ (0 < figure_height_of (get_figure_dimensions df fl fh st gt))%Q
  /\ 0 < sample_text_size_of (get_figure_dimensions df fl fh st gt)
  /\ 0 < gene_id_text_size_of (get_figure_dimensions df fl fh st gt).
Proof.
  intros Hi Hc Hl Hh Hs Hg.
  unfold get_figure_dimensions, fig_length_of, figure_height_of,
    sample_text_size_of, gene_id_text_size_of. cbn [fst snd].
  repeat split.
  - apply if_else_Q_positive; [assumption | now apply div3_positive].
  - apply if_else_Q_positive; [assumption | now apply div3_positive].
  - apply if_else_Z_positive; [assumption | lia].
  - apply if_else_Z_positive; [assumption | lia].
Qed.

Lemma figure_dimensions_positive_witness :
  (0 < fig_length_of
         (get_figure_dimensions example_matrix (Some 12%Z) None None (Some 8%Z)))%Q
  /\ (0 < figure_height_of
            (get_figure_dimensions example_matrix (Some 12%Z) None None (Some 8%Z)))%Q
  /\ 0 < sample_text_size_of
           (get_figure_dimensions example_matrix (Some 12%Z) None None (Some 8%Z))
  /\ 0 < gene_id_text_size_of
           (get_figure_dimensions example_matrix (Some 12%Z) None None (Some 8%Z)).
Proof.
  apply (figure_dimensions_positive example_matrix
           (Some 12%Z) None None (Some 8%Z)).
  - vm_compute. lia.
  - vm_compute. lia.
  - reflexivity.
  - reflexivity.
  - reflexivity.
  - reflexivity.
Defined.

(** ** The order of the gene columns in the file *)

Lemma ascii_compare_lt_trans (a b c : ascii) :
  Ascii.compare a b = Lt -> Ascii.compare b c = Lt -> Ascii.compare a c = Lt.
Proof.
  unfold Ascii.compare. rewrite !N.compare_lt_iff. apply N.lt_trans.
Qed.

Lemma string_compare_lt_trans (s1 s2 s3 : string) :
  String.compare s1 s2 = Lt -> String.compare s2 s3 = Lt ->
  String.compare s1 s3 = Lt.
Proof.
  revert s2 s3. induction s1 as [|c1 s1 IH]; intros [|c2 s2] [|c3 s3];
    simpl; try discriminate; try reflexivity.
  destruct (Ascii.compare c1 c2) eqn:E12; try discriminate;
    destruct (Ascii.compare c2 c3) eqn:E23; try discriminate.
  - apply Ascii.compare_eq_iff in E12, E23. subst.
    assert (E : Ascii.compare c3 c3 = Eq) by apply N.compare_refl.
    rewrite E. apply IH.
  - apply Ascii.compare_eq_iff in E12. subst. now rewrite E23.
  - apply Ascii.compare_eq_iff in E23. subst. now rewrite E12.
  - now rewrite (ascii_compare_lt_trans _ _ _ E12 E23).
Qed.

Lemma string_leb_trans (a b c : string) :
  String.leb a b = true -> String.leb b c = true -> String.leb a c = true.
Proof.
  unfold String.leb.
  destruct (String.compare a b) eqn:Eab; try discriminate;
    destruct (String.compare b c) eqn:Ebc; try discriminate; intros _ _.
  - apply String.compare_eq_iff in Eab. subst. now rewrite Ebc.
  - apply String.compare_eq_iff in Eab. subst. now rewrite Ebc.
  - apply String.compare_eq_iff in Ebc. subst. now rewrite Eab.
  - now rewrite (string_compare_lt_trans _ _ _ Eab Ebc).
Qed.

Lemma sorted_strings_unique (l l' : list string) :
  Sorted (fun a b => String.leb a b = true) l ->
  Sorted (fun a b => String.leb a b = true) l' ->
  NoDup l -> NoDup l' ->
  (forall x, In x l <-> In x l') ->
  l = l'.
Proof.
  intros S S'.
  apply Sorted_StronglySorted in S;
    [|intros a b c; apply string_leb_trans].
  apply Sorted_StronglySorted in S';
    [|intros a b c; apply string_leb_trans].
  revert l' S'. induction S as [|a l Sl IH Fa]; intros l' S' N N' H.
  - destruct l' as [|b l']; [reflexivity|].
    exfalso. apply (H b). now left.
  - destruct S' as [|b l' Sl' Fb].
    + exfalso. apply (H a). now left.
    + rewrite Forall_forall in Fa, Fb.
      apply NoDup_cons_iff in N, N'. destruct N as [Na N], N' as [Nb N'].
      assert (E : a = b).
      { destruct (proj1 (H a) (or_introl eq_refl)) as [E | Hin]; [now symmetry|].
        destruct (proj2 (H b) (or_introl eq_refl)) as [E | Hin']; [assumption|].
        apply String.leb_antisym; [now apply Fa | now apply Fb]. }
      subst b. f_equal. apply IH; try assumption.
      intros x. split; intros Hx.
      * destruct (proj1 (H x) (or_intror Hx)) as [E | Hin]; [|assumption].
        subst x. contradiction.
      * destruct (proj2 (H x) (or_intror Hx)) as [E | Hin]; [|assumption].
        subst x. contradiction.
Qed.

Lemma sorted_samples_sorted (t : LengthTable) :
  Sorted (fun a b => String.leb a b = true) (sorted_samples t).
Proof. apply sort_sorted, String.leb_total. Qed.

Lemma sorted_genes_sorted (t : LengthTable) :
  Sorted (fun a b => String.leb a b = true) (sorted_genes t).
Proof. apply sort_sorted, String.leb_total. Qed.

Lemma well_formed_permuted_columns (t t' : LengthTable) :
  well_formed t = true ->
  id_header t' = id_header t ->
  ids t' = ids t ->
  Permutation (gene_columns t') (gene_columns t) ->
  well_formed t' = true.
Proof.
  intros W Hh Hi P. pose proof (well_formed_inv t W) as (Hs0 & Hs & H2 & Hd).
  destruct (shaped_inv t Hs) as (H1 & Hg & Hlen & Hn).
  unfold well_formed. rewrite andb_true_iff. split.
  - apply readable_intro; [congruence|]. apply shaped_intro.
    + now rewrite Hi.
    + now rewrite (Permutation_length P).
    + intros gc Hgc. rewrite Hi. apply Hlen.
      now apply (Permutation_in _ P).
    + rewrite Hh. apply NoDup_cons_iff in Hn. destruct Hn as [Hnot Hn].
      assert (PN : Permutation (gene_names t') (gene_names t))
        by now apply Permutation_map.
      apply NoDup_cons.
      * intros Hin. apply Hnot. now apply (Permutation_in _ PN).
      * apply (Permutation_NoDup (Permutation_sym PN) Hn).
  - unfold samples_distinct, sample_ids. rewrite Hi.
    apply andb_true_iff. split; [now apply Nat.leb_le|].
    apply negb_true_iff. now apply (has_duplicates_false _ string_eqb_spec).
Qed.

(** X13.  The matrix does not depend on the order of the gene columns in
    the file: two well-formed tables with the same first column and the
    same gene columns, in any order, give the same matrix. *)
Theorem gene_column_order_irrelevant (parse : string -> option num)
  (t t' : LengthTable) :
  well_formed t = true ->
  id_header t' = id_header t ->
  ids t' = ids t ->
  Permutation (gene_columns t') (gene_columns t) ->
  recovery_matrix parse (frame_of_table t')
  = recovery_matrix parse (frame_of_table t).
Proof.
  intros W Hh Hi P.
  pose proof (well_formed_permuted_columns t t' W Hh Hi P) as W'.
  rewrite (recovery_matrix_well_formed parse t W),
    (recovery_matrix_well_formed parse t' W').
  pose proof (well_formed_inv t W) as (_ & Hs & H2 & Hd).
  pose proof (well_formed_inv t' W') as (_ & Hs' & H2' & Hd').
  destruct (shaped_inv t Hs) as (_ & _ & _ & Hn).
  apply NoDup_cons_iff in Hn. destruct Hn as [_ Hn].
  assert (Eids : sample_ids t' = sample_ids t)
    by (unfold sample_ids; now rewrite Hi).
  assert (ES : sorted_samples t' = sorted_samples t).
  { apply sorted_strings_unique;
      try apply sorted_samples_sorted; try apply NoDup_sorted_samples.
    intros x. rewrite (In_sorted_samples t' x Hs'), (In_sorted_samples t x Hs).
    now rewrite Eids. }
  assert (EG : sorted_genes t' = sorted_genes t).
  { apply sorted_strings_unique;
      try apply sorted_genes_sorted; try apply NoDup_sorted_genes.
    intros x. rewrite (In_sorted_genes t' x H2'), (In_sorted_genes t x H2).
    unfold gene_names. split; apply Permutation_in, Permutation_map;
      [assumption | now apply Permutation_sym]. }
  f_equal. unfold table_matrix. rewrite ES, EG. f_equal.
  apply map_ext_in. intros sid Hsid. apply map_ext_in. intros g Hg.
  apply (In_sorted_samples t sid Hs) in Hsid.
  apply (In_sorted_genes t g H2) in Hg.
  destruct (pivot_cell_found t sid g Hs Hsid Hg) as (col & s & Hc & Hp & ->).
  assert (Hsid' : In sid (sample_ids t')) by now rewrite Eids.
  assert (Hg' : In g (gene_names t')).
  { unfold gene_names in *.
    apply (Permutation_in _ (Permutation_map fst (Permutation_sym P))), Hg. }
  destruct (pivot_cell_found t' sid g Hs' Hsid' Hg')
    as (col' & s' & Hc' & Hp' & ->).
  apply (Permutation_in _ P) in Hc'. rewrite Eids in Hp'.
  assert (col' = col) by (eapply NoDup_fst_functional; eassumption).
  subst col'. f_equal.
  eapply (NoDup_fst_functional (combine (sample_ids t) (tl col)));
    [|eassumption|eassumption].
  rewrite combine_fst_same_length; [assumption|].
  now apply (sample_cells_length t (g, col)).
Qed.

Lemma gene_column_order_irrelevant_witness :
  recovery_matrix no_parse
    (frame_of_table
       (mkTable "Species" ["MeanLength"; "Sample1"; "Sample2"]
          [("geneB", [200; 200; 50]%Q); ("geneA", [100; 50; 150]%Q)]))
  = recovery_matrix no_parse (frame_of_table (example_table "Species")).
Proof.
  apply (gene_column_order_irrelevant no_parse (example_table "Species")
           (mkTable "Species" ["MeanLength"; "Sample1"; "Sample2"]
              [("geneB", [200; 200; 50]%Q); ("geneA", [100; 50; 150]%Q)])).
  - reflexivity.
  - reflexivity.
  - reflexivity.
  - apply perm_swap.
Defined.

(** ** The order of the sample rows in the file *)

Lemma Forall2_In_r {A B} (R : A -> B -> Prop) (l : list A) (l' : list B) (b : B) :
  Forall2 R l l' -> In b l' -> exists a, In a l /\ R a b.
Proof.
  induction 1 as [|a b' l l' Hab HF IH]; simpl; [tauto|].
  intros [<- | Hin].
  - exists a. split; [now left | assumption].
  - destruct (IH Hin) as (a' & Ha' & HR). exists a'. split; [now right | assumption].
Qed.

Lemma same_sample_rows_names (t t' : LengthTable) :
  same_sample_rows t t' -> gene_names t' = gene_names t.
Proof.
  unfold same_sample_rows, gene_names.
  induction 1 as [|gc gc' l l' (E & _) HF IH]; simpl; [reflexivity|].
  now rewrite E, IH.
Qed.

Lemma same_sample_rows_ids (t t' : LengthTable) :
  shaped t = true -> shaped t' = true -> same_sample_rows t t' ->
  Permutation (sample_ids t') (sample_ids t).
Proof.
  intros Hs Hs' H. destruct (shaped_inv t Hs) as (_ & Hg & _ & _).
  pose proof (sample_cells_length t) as L.
  pose proof (sample_cells_length t') as L'.
  unfold same_sample_rows in H.
  destruct (gene_columns t) as [|gc l]; [simpl in Hg; lia|].
  inversion H as [|? gc' ? l' (_ & _ & P) HF E1 E2]. subst.
  rewrite <- E2 in L'.
  apply (Permutation_map fst) in P.
  rewrite !combine_fst_same_length in P; [assumption| |].
  - apply (L gc Hs). now left.
  - apply (L' gc' Hs'). now left.
Qed.

(** X14.  The matrix does not depend on the order of the sample rows in
    the file: two well-formed tables whose first columns [pd.read_csv]
    keeps as text, and whose gene columns have the same names and
    reference cells and hold the same pairs of sample identifier and
    length, give the same matrix. *)
Theorem sample_row_order_irrelevant (parse : string -> option num)
  (t t' : LengthTable) :
  well_formed t = true ->
  well_formed t' = true ->
  text_identifiers t = true ->
  text_identifiers t' = true ->
  same_sample_rows t t' ->
  recovery_matrix parse (frame_of_table t')
  = recovery_matrix parse (frame_of_table t).
Proof.
  intros W W' _ _ H.
  rewrite (recovery_matrix_well_formed parse t W),
    (recovery_matrix_well_formed parse t' W').
  pose proof (well_formed_inv t W) as (_ & Hs & H2 & Hd).
  pose proof (well_formed_inv t' W') as (_ & Hs' & H2' & Hd').
  destruct (shaped_inv t Hs) as (_ & _ & _ & Hn).
  apply NoDup_cons_iff in Hn. destruct Hn as [_ Hn].
  pose proof (same_sample_rows_ids t t' Hs Hs' H) as PI.
  pose proof (same_sample_rows_names t t' H) as EN.
  assert (ES : sorted_samples t' = sorted_samples t).
  { apply sorted_strings_unique;
      try apply sorted_samples_sorted; try apply NoDup_sorted_samples.
    intros x. rewrite (In_sorted_samples t' x Hs'), (In_sorted_samples t x Hs).
    split; apply Permutation_in; [assumption | now apply Permutation_sym]. }
  assert (EG : sorted_genes t' = sorted_genes t).
  { apply sorted_strings_unique;
      try apply sorted_genes_sorted; try apply NoDup_sorted_genes.
    intros x. rewrite (In_sorted_genes t' x H2'), (In_sorted_genes t x H2).
    now rewrite EN. }
  f_equal. unfold table_matrix. rewrite ES, EG. f_equal.
  apply map_ext_in. intros sid Hsid. apply map_ext_in. intros g Hg.
  apply (In_sorted_samples t sid Hs) in Hsid.
  apply (In_sorted_genes t g H2) in Hg.
  destruct (pivot_cell_found t sid g Hs Hsid Hg) as (col & s & Hc & Hp & ->).
  assert (Hsid' : In sid (sample_ids t'))
    by (apply (Permutation_in _ (Permutation_sym PI)), Hsid).
  assert (Hg' : In g (gene_names t')) by now rewrite EN.
  destruct (pivot_cell_found t' sid g Hs' Hsid' Hg')
    as (col' & s' & Hc' & Hp' & ->).
  destruct (Forall2_In_r _ _ _ _ H Hc') as ([g0 col0] & Hc0 & Eg & Eh & P).
  cbn [fst snd] in Eg, Eh, P. subst g0.
  assert (col0 = col) by (eapply NoDup_fst_functional; eassumption).
  subst col0. rewrite Eh. f_equal.
  apply (Permutation_in _ P) in Hp'.
  eapply (NoDup_fst_functional (combine (sample_ids t) (tl col)));
    [|eassumption|eassumption].
  rewrite combine_fst_same_length; [assumption|].
  now apply (sample_cells_length t (g, col)).
Qed.

Lemma sample_row_order_irrelevant_witness :
  recovery_matrix no_parse
    (frame_of_table
       (mkTable "Species" ["MeanLength"; "Sample2"; "Sample1"]
          [("geneA", [100; 150; 50]%Q); ("geneB", [200; 50; 200]%Q)]))
  = recovery_matrix no_parse (frame_of_table (example_table "Species")).
Proof.
  apply (sample_row_order_irrelevant no_parse (example_table "Species")
           (mkTable "Species" ["MeanLength"; "Sample2"; "Sample1"]
              [("geneA", [100; 150; 50]%Q); ("geneB", [200; 50; 200]%Q)])).
  - reflexivity.
  - reflexivity.
  - reflexivity.
  - reflexivity.
  - repeat constructor; apply perm_swap.
Defined.

(** ** Overrides in the rendering *)

(** X16.  In every run of [main] that returns, an override that is given
    and is not [0] is the value the rendering uses: the sample text size
    for the tick labels of the y axis, the gene text size for those of the
    x axis, and the figure length and height, in that order, for the
    figure size set by the first call. *)
Theorem overrides_reach_the_rendering (parse : string -> option num)
  (fs : FileSystem) (args : Args) (tr : list call) :
  run (main parse fs args) = (Ok tt, tr) ->
  (forall v, v <> 0 -> sample_text_size args = Some v ->
     In (tick_params "y" v) tr)
  /\ (forall v, v <> 0 -> gene_text_size args = Some v ->
        In (tick_params "x" v) tr)
  /\ (forall l h, l <> 0 -> h <> 0 ->
        figure_length args = Some l -> figure_height args = Some h ->
        hd_error tr = Some (sns_set_figsize (inject_Z l) (inject_Z h))).
Proof.
  intros H. destruct (main_success parse fs args tr H) as (m & ->).
  unfold render_calls, get_figure_dimensions, fig_length_of, figure_height_of,
    sample_text_size_of, gene_id_text_size_of. cbn [fst snd hd_error].
  repeat split.
  - intros v Hv ->. apply Z.eqb_neq in Hv. cbn [if_else]. rewrite Hv.
    simpl. tauto.
  - intros v Hv ->. apply Z.eqb_neq in Hv. cbn [if_else]. rewrite Hv.
    simpl. tauto.
  - intros l h Hl Hh -> ->. apply Z.eqb_neq in Hl, Hh. cbn [if_else].
    now rewrite Hl, Hh.
Qed.

Lemma overrides_reach_the_rendering_witness :
  (forall v, v <> 0 ->
     sample_text_size
       (mkArgs "seq_lengths.tsv" None "recovery_heatmap"
          (Some 20) (Some 8) (Some 14) (Some 6) "pdf" 300) = Some v ->
     In (tick_params "y" v)
        (snd (run (main no_parse
                     (one_file "./seq_lengths.tsv" (example_table "Species"))
                     (mkArgs "seq_lengths.tsv" None "recovery_heatmap"
                        (Some 20) (Some 8) (Some 14) (Some 6) "pdf" 300)))))
  /\ (forall v, v <> 0 ->
        gene_text_size
          (mkArgs "seq_lengths.tsv" None "recovery_heatmap"
             (Some 20) (Some 8) (Some 14) (Some 6) "pdf" 300) = Some v ->
        In (tick_params "x" v)
           (snd (run (main no_parse
                        (one_file "./seq_lengths.tsv" (example_table "Species"))
                        (mkArgs "seq_lengths.tsv" None "recovery_heatmap"
                           (Some 20) (Some 8) (Some 14) (Some 6) "pdf" 300)))))
  /\ (forall l h, l <> 0 -> h <> 0 ->
        figure_length
          (mkArgs "seq_lengths.tsv" None "recovery_heatmap"
             (Some 20) (Some 8) (Some 14) (Some 6) "pdf" 300) = Some l ->
        figure_height
          (mkArgs "seq_lengths.tsv" None "recovery_heatmap"
             (Some 20) (Some 8) (Some 14) (Some 6) "pdf" 300) = Some h ->
        hd_error
          (snd (run (main no_parse
                       (one_file "./seq_lengths.tsv" (example_table "Species"))
                       (mkArgs "seq_lengths.tsv" None "recovery_heatmap"
                          (Some 20) (Some 8) (Some 14) (Some 6) "pdf" 300))))
        = Some (sns_set_figsize (inject_Z l) (inject_Z h))).
Proof.
  apply (overrides_reach_the_rendering no_parse
           (one_file "./seq_lengths.tsv" (example_table "Species"))
           (mkArgs "seq_lengths.tsv" None "recovery_heatmap"
              (Some 20) (Some 8) (Some 14) (Some 6) "pdf" 300)).
  vm_compute. reflexivity.
Defined.
